(** * GitHubIntegration: a shallow embedding of src/github-integration.js

    The class [GitHubIntegration] stores the bakery's JSON documents in a
    repository through the contents endpoint of a remote API.  Every method
    is a short chain of requests; the embedding threads an explicit world
    (the state of the remote side and the list of requests issued so far)
    through a state-and-exception monad, and represents the JavaScript
    values the methods handle by an inductive type. *)

From Stdlib Require Import ZArith Lia Ascii String Sorted.
From stdpp Require Import base list strings pretty gmap.

Set Default Proof Using "Type".
Set Warnings "-register-all".

(** ** JavaScript values *)

Module Js.

(** JSON data as the methods see it after [JSON.parse]: numbers are
    restricted to the integers (identifiers, prices, stocks, clock
    readings), strings are byte strings.  [VUndef] is the value of a
    missing property. *)
Inductive value : Type :=
| VUndef
| VNull
| VBool (b : bool)
| VNum (n : Z)
| VStr (s : string)
| VArr (items : list value)
| VObj (fields : list (string * value)).

(** A thrown [Error]; the methods only ever read its [message]. *)
Inductive exn : Type := JsError (msg : string).

Definition message (e : exn) : string := let 'JsError m := e in m.

Inductive result (A : Type) : Type :=
| Ok (a : A)
| Throw (e : exn).
Arguments Ok {A} a.
Arguments Throw {A} e.

Definition rbind {A B} (r : result A) (k : A → result B) : result B :=
  match r with Ok a => k a | Throw e => Throw e end.

(** ToBoolean. *)
Definition truthy (v : value) : bool :=
  match v with
  | VUndef | VNull => false
  | VBool b => b
  | VNum n => negb (n =? 0)%Z
  | VStr s => negb (String.eqb s EmptyString)
  | VArr _ | VObj _ => true
  end.

(** [a || b]. *)
Definition js_or (a b : value) : value := if truthy a then a else b.

Definition join_with (sep : string) : list string → string :=
  fix go l :=
    match l with
    | [] => EmptyString
    | [x] => x
    | x :: r => x +:+ sep +:+ go r
    end.

(** ToString, as used by template literals and by [atob]. *)
Fixpoint to_string (v : value) : string :=
  match v with
  | VUndef => "undefined"
  | VNull => "null"
  | VBool true => "true"
  | VBool false => "false"
  | VNum n => pretty n
  | VStr s => s
  | VArr l =>
      join_with ","
        ((fix elems (l : list value) : list string :=
            match l with
            | [] => []
            | x :: r =>
                match x with
                | VUndef | VNull => EmptyString
                | _ => to_string x
                end :: elems r
            end) l)
  | VObj _ => "[object Object]"
  end.

(** [s.includes(needle)]. *)
Fixpoint includes (needle s : string) : bool :=
  String.prefix needle s ||
  match s with
  | EmptyString => false
  | String _ s' => includes needle s'
  end.

(** *** Property keys

    An object keeps its integer-like keys first, in ascending order, and
    the other keys in insertion order. *)

Definition digit_of (c : ascii) : option N :=
  let n := N_of_ascii c in
  if ((48 <=? n) && (n <=? 57))%N then Some (n - 48)%N else None.

Fixpoint digits_value (acc : N) (s : string) : option N :=
  match s with
  | EmptyString => Some acc
  | String c s' =>
      match digit_of c with
      | Some d => digits_value (10 * acc + d)%N s'
      | None => None
      end
  end.

(** The array index a key denotes: a canonical decimal numeral below
    2^32 - 1. *)
Definition array_index (k : string) : option N :=
  match k with
  | EmptyString => None
  | _ =>
      match digits_value 0 k with
      | Some n =>
          if String.eqb (pretty n) k && (n <? 4294967295)%N
          then Some n else None
      | None => None
      end
  end.

Definition fields := list (string * value).

Fixpoint obj_get (fs : fields) (k : string) : option value :=
  match fs with
  | [] => None
  | (k', v) :: r => if String.eqb k' k then Some v else obj_get r k
  end.

Fixpoint obj_replace (fs : fields) (k : string) (v : value) : fields :=
  match fs with
  | [] => []
  | (k', v') :: r =>
      if String.eqb k' k then (k, v) :: r else (k', v') :: obj_replace r k v
  end.

(** Place of a new integer-like key [n]: before the first key that is not
    integer-like or is a larger integer. *)
Fixpoint obj_insert_index (fs : fields) (n : N) (k : string) (v : value)
  : fields :=
  match fs with
  | [] => [(k, v)]
  | (k', v') :: r =>
      match array_index k' with
      | Some m =>
          if (m <? n)%N then (k', v') :: obj_insert_index r n k v
          else (k, v) :: fs
      | None => (k, v) :: fs
      end
  end.

(** [o[k] = v] on the own properties of an ordinary object. *)
Definition obj_set (fs : fields) (k : string) (v : value) : fields :=
  match obj_get fs k with
  | Some _ => obj_replace fs k v
  | None =>
      match array_index k with
      | Some n => obj_insert_index fs n k v
      | None => fs ++ [(k, v)]
      end
  end.

Fixpoint chars (s : string) : list value :=
  match s with
  | EmptyString => []
  | String c s' => VStr (String c EmptyString) :: chars s'
  end.

Definition indexed (l : list value) : fields :=
  imap (λ i x, (pretty (N.of_nat i), x)) l.

(** The own enumerable properties an object spread [...v] copies. *)
Definition own_props (v : value) : fields :=
  match v with
  | VObj fs => fs
  | VArr l => indexed l
  | VStr s => indexed (chars s)
  | _ => []
  end.

(** [{ ...target, ...src }] continued from the properties already in
    [target]. *)
Definition spread (target : fields) (src : value) : fields :=
  fold_left (λ acc kv, obj_set acc kv.1 kv.2) (own_props src) target.

(** [a === b].  Arrays and objects compare by identity; every array or
    object the methods compare was built by a separate [JSON.parse] or
    literal, so two of them are never the same object. *)
Definition strict_eq (a b : value) : bool :=
  match a, b with
  | VUndef, VUndef => true
  | VNull, VNull => true
  | VBool x, VBool y => Bool.eqb x y
  | VNum x, VNum y => (x =? y)%Z
  | VStr x, VStr y => String.eqb x y
  | _, _ => false
  end.

End Js.

Import Js.

(** ** What the class runs on *)

(** A call of [fetch(url, options)].  The body is recorded as the value
    [data] that [makeRequest] hands to [JSON.stringify]. *)
Record Request : Type := mkRequest {
  req_url : string;
  req_method : string;
  req_headers : list (string * string);
  req_body : option value
}.

(** The parts of a fetch [Response] that [makeRequest] reads; [json] is the
    outcome of [response.json()]. *)
Record Response : Type := mkResponse {
  ok : bool;
  status : Z;
  statusText : string;
  json : result value
}.

(** The built-in functions of the JavaScript engine the class calls.
    [JSON_stringify v] is [JSON.stringify(v, null, 2)], [None] standing for
    [undefined]; [toISOString t] renders the clock reading [t]; the last
    two give the text of the TypeError raised when a property of [null] or
    [undefined] is read and when a missing method is called. *)
Class Engine : Type := {
  atob : string → result string;
  btoa : string → result string;
  JSON_parse : string → result value;
  JSON_stringify : value → option string;
  toISOString : Z → string;
  null_read_message : value → string → string;
  not_function_message : string → string
}.

(** The remote side and the clock: [fetch] may reject (a transport fault)
    or resolve to a response, and both it and reading the clock may change
    the state of the environment. *)
Class Remote : Type := {
  Env : Type;
  fetch : Request → Env → result Response * Env;
  Date_now : Env → Z * Env
}.

(** The [githubConfig] record, as [JSON.parse] returns it from local
    storage. *)
Record Config : Type := mkConfig {
  username : value;
  repo : value;
  token : value
}.

(** The configuration [loadConfig] falls back to. *)
Definition defaultConfig : Config :=
  {| username := VStr "drycout"; repo := VStr "djandes-site"; token := VNull |}.

Section Async.

Context `{Rem : Remote}.

(** ** Asynchronous methods

    A method is a function from the world before the call to its outcome
    and the world after it. *)

Record World : Type := mkWorld {
  env : Env;
  log : list Request
}.

Definition M (A : Type) : Type := World → result A * World.

Definition ret {A} (a : A) : M A := λ w, (Ok a, w).

Definition throw {A} (e : exn) : M A := λ w, (Throw e, w).

Definition bind {A B} (m : M A) (k : A → M B) : M B :=
  λ w, match m w with
       | (Ok a, w') => k a w'
       | (Throw e, w') => (Throw e, w')
       end.

Definition lift {A} (r : result A) : M A := λ w, (r, w).

(** [try { m } catch (error) { handler error }]. *)
Definition try_catch {A} (m : M A) (handler : exn → M A) : M A :=
  λ w, match m w with
       | (Ok a, w') => (Ok a, w')
       | (Throw e, w') => handler e w'
       end.

(** [await fetch(url, options)]. *)
Definition do_fetch (rq : Request) : M Response :=
  λ w, let '(r, e') := fetch rq (env w) in
       (r, {| env := e'; log := log w ++ [rq] |}).

(** [Date.now()], and the reading behind [new Date()]. *)
Definition now : M Z :=
  λ w, let '(t, e') := Date_now (env w) in
       (Ok t, {| env := e'; log := log w |}).

End Async.

Notation "'let*' x ':=' m 'in' k" := (bind m (λ x, k))
  (at level 10, x pattern, m at level 100, k at level 200).

(** ** The class *)

Section GitHubIntegration.

Context `{Eng : Engine} `{Rem : Remote}.
Variable config : Config.

(** *** Property access and array methods *)

(** [v[k]] for the property names the class reads ([content], [sha],
    [message], [id], [products], ...): none of them is inherited from a
    prototype, so only own properties, [length] and indices matter. *)
Definition get_prop (v : value) (k : string) : result value :=
  match v with
  | VUndef | VNull => Throw (JsError (null_read_message v k))
  | VObj fs => Ok (default VUndef (obj_get fs k))
  | VArr l =>
      if String.eqb k "length" then Ok (VNum (Z.of_nat (length l)))
      else match array_index k with
           | Some n => Ok (default VUndef (l !! N.to_nat n))
           | None => Ok VUndef
           end
  | VStr s =>
      if String.eqb k "length" then Ok (VNum (Z.of_nat (String.length s)))
      else match array_index k with
           | Some n => Ok (default VUndef (chars s !! N.to_nat n))
           | None => Ok VUndef
           end
  | VBool _ | VNum _ => Ok VUndef
  end.

(** Calling [name.method(...)] on something that is not an array. *)
Definition no_method (name method : string) (v : value) : exn :=
  match v with
  | VUndef | VNull => JsError (null_read_message v method)
  | _ => JsError (not_function_message (name +:+ "." +:+ method))
  end.

(** [arr.push(x)]; the array after the call. *)
Definition array_push (name : string) (arr x : value) : result value :=
  match arr with
  | VArr l => Ok (VArr (l ++ [x]))
  | _ => Throw (no_method name "push" arr)
  end.

Fixpoint findIndex_from (l : list value) (id : value) (i : Z) : result Z :=
  match l with
  | [] => Ok (-1)%Z
  | p :: r =>
      rbind (get_prop p "id") (λ pid,
        if strict_eq pid id then Ok i else findIndex_from r id (i + 1)%Z)
  end.

(** [arr.findIndex(p => p.id === id)]. *)
Definition findIndex_id (name : string) (arr id : value) : result Z :=
  match arr with
  | VArr l => findIndex_from l id 0
  | _ => Throw (no_method name "findIndex" arr)
  end.

Fixpoint filter_from (l : list value) (id : value) : result (list value) :=
  match l with
  | [] => Ok []
  | p :: r =>
      rbind (get_prop p "id") (λ pid,
        rbind (filter_from r id) (λ r',
          Ok (if negb (strict_eq pid id) then p :: r' else r')))
  end.

(** [arr.filter(p => p.id !== id)]. *)
Definition filter_id_ne (name : string) (arr id : value) : result value :=
  match arr with
  | VArr l => rbind (filter_from l id) (λ l', Ok (VArr l'))
  | _ => Throw (no_method name "filter" arr)
  end.

(** [arr[index]] and [arr[index] = x] for an index that [findIndex]
    returned, hence inside the array. *)
Definition array_get (arr : value) (index : Z) : value :=
  match arr with
  | VArr l => default VUndef (l !! Z.to_nat index)
  | _ => VUndef
  end.

Definition array_set (arr : value) (index : Z) (x : value) : value :=
  match arr with
  | VArr l => VArr (<[Z.to_nat index := x]> l)
  | _ => arr
  end.


(** *** Requests *)

Definition baseUrl : string := "https://api.github.com".

Definition contents_url (path : string) : string :=
  baseUrl +:+ "/repos/" +:+ to_string (username config) +:+ "/" +:+
  to_string (repo config) +:+ "/contents/" +:+ path.

Definition request_headers : list (string * string) :=
  [("Authorization", "token " +:+ to_string (token config));
   ("Accept", "application/vnd.github.v3+json");
   ("Content-Type", "application/json")].

(** [makeRequest(path, method = 'GET', data = null)]. *)
Definition makeRequest (path method : string) (data : value) : M value :=
  if negb (truthy (token config)) then
    throw (JsError "GitHub token not configured")
  else
    let options_body :=
      if truthy data && (String.eqb method "POST" || String.eqb method "PUT")
      then Some data else None in
    let* response :=
      do_fetch {| req_url := contents_url path; req_method := method;
                  req_headers := request_headers;
                  req_body := options_body |} in
    if negb (ok response) then
      let errorData :=
        match json response with Ok j => j | Throw _ => VObj [] end in
      let* m := lift (get_prop errorData "message") in
      throw (JsError ("GitHub API Error: " +:+
                      to_string (VNum (status response)) +:+ " - " +:+
                      to_string (js_or m (VStr (statusText response)))))
    else lift (json response).

(** *** Default documents *)

Definition image_url (photo : string) : string :=
  "https://images.unsplash.com/photo-" +:+ photo +:+
  "?ixlib=rb-4.0.3&ixid=M3wxMjA3fDB8MHxwaG90by1wYWdlfHx8fGVufDB8fHx8fA%3D%3D&auto=format&fit=crop&w=1000&q=80".

Definition product (id : Z) (name : string) (categoryId price stock discount : Z)
    (image description : string) : value :=
  VObj [("id", VNum id); ("name", VStr name); ("categoryId", VNum categoryId);
        ("price", VNum price); ("stock", VNum stock);
        ("discount", VNum discount); ("image", VStr image);
        ("description", VStr description)].

Definition category (id : Z) (name description : string) : value :=
  VObj [("id", VNum id); ("name", VStr name);
        ("description", VStr description)].

Definition default_products : list value :=
  [product 1 "Roti Tawar Premium" 1 25000 50 0
     (image_url "1509440159596-0249088772ff")
     "Roti tawar lembut dengan kualitas premium";
   product 2 "Croissant Butter" 1 18000 30 10
     (image_url "1555507032-abfa424c5b2d")
     "Croissant butter yang renyah dan lezat";
   product 3 "Donat Glaze" 2 12000 25 0
     (image_url "1551024601-bec78aea704b")
     "Donat dengan glaze manis";
   product 4 "Brownies Coklat" 2 35000 20 15
     (image_url "1606313564200-e75d5e30476c")
     "Brownies coklat yang lembut dan moist";
   product 5 "French Baguette" 1 22000 15 0
     (image_url "1586444248902-2f64eddc13df")
     "Baguette Perancis yang autentik"].

Definition default_categories : list value :=
  [category 1 "Roti" "Berbagai macam roti segar";
   category 2 "Kue" "Aneka kue manis dan lezat";
   category 3 "Pastry" "Pastry premium dengan rasa internasional"].

Definition default_website : value :=
  VObj [("name", VStr "DJANDES Bakery");
        ("email", VStr "info@djandesbakery.com");
        ("phone", VStr "+62 21 1234 5678");
        ("address", VStr "Jl. Bakery No. 123, Jakarta, Indonesia");
        ("description", VStr "DJANDES Bakery telah melayani pelanggan sejak 2010 dengan komitmen untuk memberikan produk roti dan kue berkualitas tinggi.")].

(** [getDefaultData(path)]: the [switch] on the path. *)
Definition getDefaultData (path : string) : value :=
  if String.eqb path "data/products.json" then VArr default_products
  else if String.eqb path "data/categories.json" then VArr default_categories
  else if String.eqb path "data/orders.json" then VArr []
  else if String.eqb path "data/contacts.json" then VArr []
  else if String.eqb path "data/website.json" then default_website
  else VNull.

(** *** Documents *)

(** [getFile(path)]. *)
Definition getFile (path : string) : M value :=
  try_catch
    (let* response := makeRequest path "GET" VNull in
     let* c := lift (get_prop response "content") in
     let* content := lift (atob (to_string c)) in
     lift (JSON_parse content))
    (λ error,
       if includes "404" (message error) then ret (getDefaultData path)
       else throw error).

(** [saveFile(path, data, message)]. *)
Definition saveFile (path : string) (data : value) (msg : string) : M value :=
  let content := JSON_stringify data in
  let* encodedContent :=
    lift (btoa (match content with Some s => s | None => "undefined" end)) in
  try_catch
    (let* existingFile := makeRequest path "GET" VNull in
     let* sha := lift (get_prop existingFile "sha") in
     makeRequest path "PUT"
       (VObj [("message", VStr msg); ("content", VStr encodedContent);
              ("sha", sha)]))
    (λ error,
       if includes "404" (message error) then
         makeRequest path "POST"
           (VObj [("message", VStr msg); ("content", VStr encodedContent)])
       else throw error).

(** *** Products *)

Definition getProducts : M value := getFile "data/products.json".

Definition addProduct (productData : value) : M value :=
  let* products := getProducts in
  let* t := now in
  let newProduct := VObj (spread [("id", VNum t)] productData) in
  let* products := lift (array_push "products" products newProduct) in
  let* _ := saveFile "data/products.json" products "Add new product" in
  ret newProduct.

Definition updateProduct (productId productData : value) : M value :=
  let* products := getProducts in
  let* index := lift (findIndex_id "products" products productId) in
  if (index =? -1)%Z then throw (JsError "Product not found")
  else
    let products :=
      array_set products index
        (VObj (spread (spread [] (array_get products index)) productData)) in
    let* _ := saveFile "data/products.json" products
                ("Update product " +:+ to_string productId) in
    ret (array_get products index).

Definition deleteProduct (productId : value) : M value :=
  let* products := getProducts in
  let* filteredProducts := lift (filter_id_ne "products" products productId) in
  let* _ := saveFile "data/products.json" filteredProducts
              ("Delete product " +:+ to_string productId) in
  ret (VBool true).

(** *** Categories *)

Definition getCategories : M value := getFile "data/categories.json".

Definition addCategory (categoryData : value) : M value :=
  let* categories := getCategories in
  let* t := now in
  let newCategory := VObj (spread [("id", VNum t)] categoryData) in
  let* categories := lift (array_push "categories" categories newCategory) in
  let* _ := saveFile "data/categories.json" categories "Add new category" in
  ret newCategory.

Definition updateCategory (categoryId categoryData : value) : M value :=
  let* categories := getCategories in
  let* index := lift (findIndex_id "categories" categories categoryId) in
  if (index =? -1)%Z then throw (JsError "Category not found")
  else
    let categories :=
      array_set categories index
        (VObj (spread (spread [] (array_get categories index)) categoryData)) in
    let* _ := saveFile "data/categories.json" categories
                ("Update category " +:+ to_string categoryId) in
    ret (array_get categories index).

Definition deleteCategory (categoryId : value) : M value :=
  let* categories := getCategories in
  let* filteredCategories :=
    lift (filter_id_ne "categories" categories categoryId) in
  let* _ := saveFile "data/categories.json" filteredCategories
              ("Delete category " +:+ to_string categoryId) in
  ret (VBool true).

(** *** Orders *)

Definition getOrders : M value := getFile "data/orders.json".

Definition saveOrder (orderData : value) : M value :=
  let* orders := getOrders in
  let* orders := lift (array_push "orders" orders orderData) in
  let* id := lift (get_prop orderData "id") in
  let* _ := saveFile "data/orders.json" orders
              ("Save order " +:+ to_string id) in
  ret orderData.

(** *** Contacts *)

Definition getContacts : M value := getFile "data/contacts.json".

Definition saveContact (contactData : value) : M value :=
  let* contacts := getContacts in
  let* contacts := lift (array_push "contacts" contacts contactData) in
  let* id := lift (get_prop contactData "id") in
  let* _ := saveFile "data/contacts.json" contacts
              ("Save contact " +:+ to_string id) in
  ret contactData.

Definition deleteContact (contactId : value) : M value :=
  let* contacts := getContacts in
  let* filteredContacts := lift (filter_id_ne "contacts" contacts contactId) in
  let* _ := saveFile "data/contacts.json" filteredContacts
              ("Delete contact " +:+ to_string contactId) in
  ret (VBool true).

(** *** Website configuration *)

Definition getWebsiteConfig : M value := getFile "data/website.json".

(** *** Snapshots *)

(** [restoreData(backupPath)]. *)
Definition restoreData (backupPath : string) : M value :=
  try_catch
    (let* backup := getFile backupPath in
     let* products := lift (get_prop backup "products") in
     let* _ := saveFile "data/products.json" products
                 "Restore products from backup" in
     let* categories := lift (get_prop backup "categories") in
     let* _ := saveFile "data/categories.json" categories
                 "Restore categories from backup" in
     let* orders := lift (get_prop backup "orders") in
     let* _ := saveFile "data/orders.json" orders
                 "Restore orders from backup" in
     let* contacts := lift (get_prop backup "contacts") in
     let* _ := saveFile "data/contacts.json" contacts
                 "Restore contacts from backup" in
     let* website := lift (get_prop backup "website") in
     let* _ := saveFile "data/website.json" website
                 "Restore website config from backup" in
     let* timestamp := lift (get_prop backup "timestamp") in
     ret (VObj [("success", VBool true); ("timestamp", timestamp)]))
    (λ error,
       throw (JsError ("Failed to restore backup: " +:+ message error))).

(** [exportData()]. *)
Definition exportData : M value :=
  try_catch
    (let* t := now in
     let* products := getProducts in
     let* categories := getCategories in
     let* orders := getOrders in
     let* contacts := getContacts in
     let* website := getWebsiteConfig in
     ret (VObj [("timestamp", VStr (toISOString t)); ("products", products);
                ("categories", categories); ("orders", orders);
                ("contacts", contacts); ("website", website)]))
    (λ error,
       throw (JsError ("Failed to export data: " +:+ message error))).

(** [if (importData.field) await this.saveFile(path, importData.field, msg)]. *)
Definition import_optional (importData : value) (field path msg : string)
  : M unit :=
  let* x := lift (get_prop importData field) in
  if truthy x then
    let* _ := saveFile path x msg in ret tt
  else ret tt.

(** [importData(importData)]. *)
Definition importData (importData : value) : M value :=
  try_catch
    (let* products := lift (get_prop importData "products") in
     let* invalid :=
       if negb (truthy products) then ret true
       else
         let* categories := lift (get_prop importData "categories") in
         ret (negb (truthy categories)) in
     if invalid : bool then throw (JsError "Invalid import data format")
     else
       let* _ := saveFile "data/products.json" products "Import products" in
       let* categories := lift (get_prop importData "categories") in
       let* _ := saveFile "data/categories.json" categories
                   "Import categories" in
       let* _ := import_optional importData "orders" "data/orders.json"
                   "Import orders" in
       let* _ := import_optional importData "contacts" "data/contacts.json"
                   "Import contacts" in
       let* _ := import_optional importData "website" "data/website.json"
                   "Import website config" in
       ret (VObj [("success", VBool true);
                  ("message", VStr "Data imported successfully")]))
    (λ error,
       throw (JsError ("Failed to import data: " +:+ message error))).

End GitHubIntegration.

(** ** A reference engine

    Executable versions of the built-ins, used to run the class on concrete
    inputs: base64 over byte strings, [JSON.stringify] with an indent of
    two, and a [JSON.parse] for the integer subset of JSON. *)

Module RefEngine.



Definition base64_alphabet : list ascii :=
  list_ascii_of_string
    "ABCDEFGHIJKLMNOPQRSTUVWXYZabcdefghijklmnopqrstuvwxyz0123456789+/".

Definition sextet_char (n : N) : ascii :=
  default "="%char (base64_alphabet !! N.to_nat n).

Fixpoint base64_encode (bs : list N) : list ascii :=
  match bs with
  | [] => []
  | [a] =>
      [sextet_char (a / 4); sextet_char ((a mod 4) * 16); "="%char; "="%char]
  | [a; b] =>
      [sextet_char (a / 4); sextet_char ((a mod 4) * 16 + b / 16);
       sextet_char ((b mod 16) * 4); "="%char]
  | a :: b :: c :: r =>
      sextet_char (a / 4) :: sextet_char ((a mod 4) * 16 + b / 16) ::
      sextet_char ((b mod 16) * 4 + c / 64) :: sextet_char (c mod 64) ::
      base64_encode r
  end%N.

Definition bytes_of (s : string) : list N :=
  map N_of_ascii (list_ascii_of_string s).

Definition string_of_bytes (bs : list N) : string :=
  string_of_list_ascii (map ascii_of_N bs).

(** [btoa]: every character of a byte string is in the Latin-1 range, so
    the call never throws here. *)
Definition btoa (s : string) : result string :=
  Ok (string_of_list_ascii (base64_encode (bytes_of s))).

Definition sextet_of (c : ascii) : option N :=
  let n := N_of_ascii c in
  if ((65 <=? n) && (n <=? 90))%N then Some (n - 65)%N
  else if ((97 <=? n) && (n <=? 122))%N then Some (n - 71)%N
  else if ((48 <=? n) && (n <=? 57))%N then Some (n + 4)%N
  else if (n =? 43)%N then Some 62%N
  else if (n =? 47)%N then Some 63%N
  else None.

Definition is_space (c : ascii) : bool :=
  let n := N_of_ascii c in
  ((n =? 32) || (n =? 9) || (n =? 10) || (n =? 12) || (n =? 13))%N.

Fixpoint base64_decode (ss : list N) : list N :=
  match ss with
  | a :: b :: c :: d :: r =>
      (a * 4 + b / 16) :: ((b mod 16) * 16 + c / 4) :: ((c mod 4) * 64 + d) ::
      base64_decode r
  | [a; b; c] => [a * 4 + b / 16; (b mod 16) * 16 + c / 4]
  | [a; b] => [a * 4 + b / 16]
  | _ => []
  end%N.

(** Drop one or two padding characters from data whose length is a
    multiple of four. *)
Definition strip_padding (cs : list ascii) : list ascii :=
  if (length cs mod 4 =? 0)%nat then
    match reverse cs with
    | "="%char :: "="%char :: r => reverse r
    | "="%char :: r => reverse r
    | _ => cs
    end
  else cs.

Definition invalid_character : exn :=
  JsError "Failed to execute 'atob' on 'Window': The string to be decoded is not correctly encoded.".

Definition atob (s : string) : result string :=
  let cs := strip_padding (filter (λ c, is_space c = false)
                             (list_ascii_of_string s)) in
  if (length cs mod 4 =? 1)%nat then Throw invalid_character
  else
    match mapM sextet_of cs with
    | Some ss => Ok (string_of_bytes (base64_decode ss))
    | None => Throw invalid_character
    end.

(** *** JSON.stringify *)

Definition quote_char : ascii := ascii_of_N 34.
Definition backslash : ascii := ascii_of_N 92.

Definition hex_digit (n : N) : ascii :=
  if (n <? 10)%N then ascii_of_N (48 + n) else ascii_of_N (87 + n).

Definition escape_char (c : ascii) : list ascii :=
  let n := N_of_ascii c in
  if (n =? 34)%N then [backslash; quote_char]
  else if (n =? 92)%N then [backslash; backslash]
  else if (n =? 8)%N then [backslash; "b"%char]
  else if (n =? 9)%N then [backslash; "t"%char]
  else if (n =? 10)%N then [backslash; "n"%char]
  else if (n =? 12)%N then [backslash; "f"%char]
  else if (n =? 13)%N then [backslash; "r"%char]
  else if (n <? 32)%N then
    [backslash; "u"%char; "0"%char; "0"%char; hex_digit (n / 16);
     hex_digit (n mod 16)]
  else [c].

Definition quote (s : string) : string :=
  string_of_list_ascii
    (quote_char :: flat_map escape_char (list_ascii_of_string s)
       ++ [quote_char]).

Definition newline : string := String (ascii_of_N 10) EmptyString.

Fixpoint stringify (indent : string) (v : value) : option string :=
  let inner := indent +:+ "  " in
  match v with
  | VUndef => None
  | VNull => Some "null"
  | VBool true => Some "true"
  | VBool false => Some "false"
  | VNum n => Some (pretty n)
  | VStr s => Some (quote s)
  | VArr l =>
      let items :=
        (fix go (l : list value) : list string :=
           match l with
           | [] => []
           | x :: r => default "null" (stringify inner x) :: go r
           end) l in
      match items with
      | [] => Some "[]"
      | _ =>
          Some ("[" +:+ newline +:+ inner +:+
                join_with ("," +:+ newline +:+ inner) items +:+
                newline +:+ indent +:+ "]")
      end
  | VObj fs =>
      let members :=
        (fix go (fs : list (string * value)) : list string :=
           match fs with
           | [] => []
           | (k, x) :: r =>
               match stringify inner x with
               | Some sx => (quote k +:+ ": " +:+ sx) :: go r
               | None => go r
               end
           end) fs in
      match members with
      | [] => Some "{}"
      | _ =>
          Some ("{" +:+ newline +:+ inner +:+
                join_with ("," +:+ newline +:+ inner) members +:+
                newline +:+ indent +:+ "}")
      end
  end.

Definition JSON_stringify (v : value) : option string := stringify EmptyString v.

(** *** JSON.parse *)

Definition is_json_space (c : ascii) : bool :=
  let n := N_of_ascii c in
  ((n =? 32) || (n =? 9) || (n =? 10) || (n =? 13))%N.

Fixpoint skip_ws (cs : list ascii) : list ascii :=
  match cs with
  | c :: r => if is_json_space c then skip_ws r else cs
  | [] => []
  end.

Definition hex_value (c : ascii) : option N :=
  let n := N_of_ascii c in
  if ((48 <=? n) && (n <=? 57))%N then Some (n - 48)%N
  else if ((97 <=? n) && (n <=? 102))%N then Some (n - 87)%N
  else if ((65 <=? n) && (n <=? 70))%N then Some (n - 55)%N
  else None.

(** The characters of a string literal after its opening quote, up to the
    closing one.  Escapes above [\u00ff] have no byte to stand for and are
    refused. *)
Fixpoint parse_chars (cs : list ascii) (acc : list ascii)
  : option (string * list ascii) :=
  match cs with
  | [] => None
  | c :: r =>
      if (N_of_ascii c =? 34)%N then
        Some (string_of_list_ascii (reverse acc), r)
      else if (N_of_ascii c =? 92)%N then
        match r with
        | e :: r' =>
            let n := N_of_ascii e in
            if (n =? 34)%N then parse_chars r' (quote_char :: acc)
            else if (n =? 92)%N then parse_chars r' (backslash :: acc)
            else if (n =? 47)%N then parse_chars r' ("/"%char :: acc)
            else if (n =? 98)%N then parse_chars r' (ascii_of_N 8 :: acc)
            else if (n =? 102)%N then parse_chars r' (ascii_of_N 12 :: acc)
            else if (n =? 110)%N then parse_chars r' (ascii_of_N 10 :: acc)
            else if (n =? 114)%N then parse_chars r' (ascii_of_N 13 :: acc)
            else if (n =? 116)%N then parse_chars r' (ascii_of_N 9 :: acc)
            else if (n =? 117)%N then
              match r' with
              | a :: b :: c' :: d :: r'' =>
                  match hex_value a, hex_value b, hex_value c', hex_value d with
                  | Some 0%N, Some 0%N, Some x, Some y =>
                      parse_chars r'' (ascii_of_N (16 * x + y) :: acc)
                  | _, _, _, _ => None
                  end
              | _ => None
              end
            else None
        | [] => None
        end
      else if (N_of_ascii c <? 32)%N then None
      else parse_chars r (c :: acc)
  end.

Fixpoint parse_digits (cs : list ascii) (acc : N) : N * list ascii :=
  match cs with
  | c :: r =>
      match digit_of c with
      | Some d => parse_digits r (10 * acc + d)%N
      | None => (acc, cs)
      end
  | [] => (acc, [])
  end.

(** A number without fraction or exponent: [0] or a numeral with no
    leading zero. *)
Definition parse_int (cs : list ascii) : option (N * list ascii) :=
  match cs with
  | c :: r =>
      match digit_of c with
      | Some 0%N =>
          match r with
          | c' :: _ =>
              match digit_of c' with Some _ => None | None => Some (0%N, r) end
          | [] => Some (0%N, r)
          end
      | Some d => Some (parse_digits r d)
      | None => None
      end
  | [] => None
  end.

Definition ends_number (cs : list ascii) : bool :=
  match cs with
  | c :: _ =>
      let n := N_of_ascii c in negb ((n =? 46) || (n =? 101) || (n =? 69))%N
  | [] => true
  end.

Definition literal (word : string) (v : value) (cs : list ascii)
  : option (value * list ascii) :=
  let w := list_ascii_of_string word in
  if decide (take (length w) cs = w) then Some (v, drop (length w) cs)
  else None.

(** A value, the elements of an array after its opening bracket, and the
    members of an object after its opening brace. *)
Fixpoint parse_value (fuel : nat) (cs : list ascii)
  : option (value * list ascii) :=
  match fuel with
  | O => None
  | S fuel =>
      match skip_ws cs with
      | [] => None
      | c :: r =>
          let n := N_of_ascii c in
          if (n =? 110)%N then literal "null" VNull (c :: r)
          else if (n =? 116)%N then literal "true" (VBool true) (c :: r)
          else if (n =? 102)%N then literal "false" (VBool false) (c :: r)
          else if (n =? 34)%N then
            match parse_chars r [] with
            | Some (s, r') => Some (VStr s, r')
            | None => None
            end
          else if (n =? 91)%N then
            match skip_ws r with
            | c' :: r' =>
                if (N_of_ascii c' =? 93)%N then Some (VArr [], r')
                else parse_elements fuel r []
            | [] => None
            end
          else if (n =? 123)%N then
            match skip_ws r with
            | c' :: r' =>
                if (N_of_ascii c' =? 125)%N then Some (VObj [], r')
                else parse_members fuel r []
            | [] => None
            end
          else if (n =? 45)%N then
            match parse_int r with
            | Some (m, r') =>
                if ends_number r' then Some (VNum (- Z.of_N m), r') else None
            | None => None
            end
          else
            match parse_int (c :: r) with
            | Some (m, r') =>
                if ends_number r' then Some (VNum (Z.of_N m), r') else None
            | None => None
            end
      end
  end
with parse_elements (fuel : nat) (cs : list ascii) (acc : list value)
  : option (value * list ascii) :=
  match fuel with
  | O => None
  | S fuel =>
      match parse_value fuel cs with
      | Some (v, r) =>
          match skip_ws r with
          | c :: r' =>
              if (N_of_ascii c =? 44)%N then parse_elements fuel r' (v :: acc)
              else if (N_of_ascii c =? 93)%N then
                Some (VArr (reverse (v :: acc)), r')
              else None
          | [] => None
          end
      | None => None
      end
  end
with parse_members (fuel : nat) (cs : list ascii) (acc : fields)
  : option (value * list ascii) :=
  match fuel with
  | O => None
  | S fuel =>
      match skip_ws cs with
      | q :: r =>
          if (N_of_ascii q =? 34)%N then
            match parse_chars r [] with
            | Some (k, r1) =>
                match skip_ws r1 with
                | colon :: r2 =>
                    if (N_of_ascii colon =? 58)%N then
                      match parse_value fuel r2 with
                      | Some (v, r3) =>
                          match skip_ws r3 with
                          | c :: r4 =>
                              if (N_of_ascii c =? 44)%N then
                                parse_members fuel r4 (obj_set acc k v)
                              else if (N_of_ascii c =? 125)%N then
                                Some (VObj (obj_set acc k v), r4)
                              else None
                          | [] => None
                          end
                      | None => None
                      end
                    else None
                | [] => None
                end
            | None => None
            end
          else None
      | [] => None
      end
  end.

Definition syntax_error : exn := JsError "Unexpected token in JSON".

Definition JSON_parse (s : string) : result value :=
  let cs := list_ascii_of_string s in
  match parse_value (S (length cs)) cs with
  | Some (v, r) =>
      match skip_ws r with
      | [] => Ok v
      | _ => Throw syntax_error
      end
  | None => Throw syntax_error
  end.

(** *** Dates *)

Definition pad (width : nat) (n : Z) : string :=
  let s := pretty n in
  string_of_list_ascii (replicate (width - String.length s) "0"%char) +:+ s.

(** [new Date(t).toISOString()] for a reading in the years 0 to 9999: the
    civil date of the day number, then the time of day. *)
Definition toISOString (t : Z) : string :=
  let days := (t / 86400000)%Z in
  let ms := (t mod 86400000)%Z in
  let z := (days + 719468)%Z in
  let era := (z / 146097)%Z in
  let doe := (z - era * 146097)%Z in
  let yoe := ((doe - doe / 1460 + doe / 36524 - doe / 146096) / 365)%Z in
  let doy := (doe - (365 * yoe + yoe / 4 - yoe / 100))%Z in
  let mp := ((5 * doy + 2) / 153)%Z in
  let d := (doy - (153 * mp + 2) / 5 + 1)%Z in
  let m := (if (mp <? 10)%Z then mp + 3 else mp - 9)%Z in
  let y := (yoe + era * 400 + (if (m <=? 2)%Z then 1 else 0))%Z in
  pad 4 y +:+ "-" +:+ pad 2 m +:+ "-" +:+ pad 2 d +:+ "T" +:+
  pad 2 (ms / 3600000) +:+ ":" +:+ pad 2 (ms / 60000 mod 60) +:+ ":" +:+
  pad 2 (ms / 1000 mod 60) +:+ "." +:+ pad 3 (ms mod 1000) +:+ "Z".

(** *** TypeError texts *)

Definition null_read_message (v : value) (k : string) : string :=
  "Cannot read properties of " +:+ to_string v +:+ " (reading '" +:+ k +:+
  "')".

Definition not_function_message (callee : string) : string :=
  callee +:+ " is not a function".

Definition engine : Engine :=
  Build_Engine atob btoa JSON_parse JSON_stringify toISOString
    null_read_message not_function_message.

End RefEngine.

(** ** Two remote sides to run the class against *)

Definition respond (code : Z) (text : string) (body : value) : Response :=
  {| ok := (200 <=? code)%Z && (code <? 300)%Z; status := code;
     statusText := text; json := Ok body |}.

(** A store that keeps, for each URL, the base64 content last written and
    its concurrency token: GET returns both or answers 404; PUT and POST
    with a [content] create the file, or replace it when the [sha] sent is
    the current token.  Every request takes [latency] milliseconds. *)
Module MemStore.

Record store : Type := mkStore {
  files : gmap string (string * string);
  clock : Z;
  latency : Z;
  revision : N
}.

Definition elapse (st : store) : store :=
  {| files := files st; clock := (clock st + latency st)%Z;
     latency := latency st; revision := revision st |}.

Definition write (url content : string) (st : store) : store :=
  {| files := <[url := (content, "rev" +:+ pretty (revision st))]> (files st);
     clock := (clock st + latency st)%Z; latency := latency st;
     revision := (revision st + 1)%N |}.

Definition written (st : store) : value :=
  VObj [("content", VObj [("sha", VStr ("rev" +:+ pretty (revision st)))])].

Definition failure (text : string) : value := VObj [("message", VStr text)].

Definition fetch (rq : Request) (st : store) : result Response * store :=
  let url := req_url rq in
  if String.eqb (req_method rq) "GET" then
    match files st !! url with
    | Some (c, sha) =>
        (Ok (respond 200 "OK" (VObj [("content", VStr c); ("sha", VStr sha)])),
         elapse st)
    | None => (Ok (respond 404 "Not Found" (failure "Not Found")), elapse st)
    end
  else if String.eqb (req_method rq) "PUT" || String.eqb (req_method rq) "POST"
  then
    match req_body rq with
    | Some (VObj b) =>
        match obj_get b "content" with
        | Some (VStr c) =>
            match files st !! url with
            | Some (_, sha) =>
                if strict_eq (default VUndef (obj_get b "sha")) (VStr sha) then
                  (Ok (respond 200 "OK" (written st)), write url c st)
                else
                  (Ok (respond 409 "Conflict"
                         (failure (url +:+ " does not match"))), elapse st)
            | None => (Ok (respond 201 "Created" (written st)), write url c st)
            end
        | _ =>
            (Ok (respond 422 "Unprocessable Entity"
                   (failure "Invalid request")), elapse st)
        end
    | _ =>
        (Ok (respond 422 "Unprocessable Entity" (failure "Invalid request")),
         elapse st)
    end
  else
    (Ok (respond 405 "Method Not Allowed" (failure "Method Not Allowed")),
     elapse st).

Definition remote : Remote :=
  Build_Remote store fetch (λ st, (clock st, st)).

(** The documents of a state, with their tokens. *)
Definition docs (st : store) (url : string) : option (string * value) :=
  prod_map id VStr <$> files st !! url.

(** The state in which nothing was ever written. *)
Definition empty (t : Z) : store :=
  {| files := ∅; clock := t; latency := 40; revision := 0 |}.

End MemStore.

(** A remote side that answers the requests with a prepared list of
    outcomes, whatever is asked, and rejects once the list is used up. *)
Module Scripted.

Record script : Type := mkScript {
  replies : list (result Response);
  clock : Z
}.

Definition fetch (rq : Request) (sc : script) : result Response * script :=
  match replies sc with
  | r :: rest => (r, {| replies := rest; clock := clock sc |})
  | [] => (Throw (JsError "Failed to fetch"), sc)
  end.

Definition remote : Remote :=
  Build_Remote script fetch (λ sc, (clock sc, sc)).

End Scripted.

(** ** Vocabulary of the specification *)

Section Contract.

Context `{Eng : Engine} `{Rem : Remote}.
Variable config : Config.

(** The request [makeRequest(path)] sends. *)
Definition get_request (path : string) : Request :=
  {| req_url := contents_url config path; req_method := "GET";
     req_headers := request_headers config; req_body := None |}.

(** The request [makeRequest(path, method, {message, content, sha})] sends;
    without a [sha] the body is [{message, content}]. *)
Definition write_request (method path msg content : string)
    (sha : option value) : Request :=
  {| req_url := contents_url config path; req_method := method;
     req_headers := request_headers config;
     req_body :=
       Some (VObj ([("message", VStr msg); ("content", VStr content)] ++
                   match sha with Some s => [("sha", s)] | None => [] end)) |}.

Definition is_write (rq : Request) : bool :=
  String.eqb (req_method rq) "PUT" || String.eqb (req_method rq) "POST".

(** The requests of a log that write. *)
Definition writes (l : list Request) : list Request :=
  List.filter is_write l.

(** What [saveFile] puts in the [content] field for [data], and what
    [getFile] makes of a [content] field. *)
Definition encode (data : value) : result string :=
  btoa (match JSON_stringify data with Some s => s | None => "undefined" end).

Definition decode (content : string) : result value :=
  rbind (atob content) JSON_parse.

(** The contract the class expects of the remote side, for a view [docs]
    of its state as a partial map from URLs to a content and its
    concurrency token: GET answers with both, or with status 404 when
    there is none; PUT with the current token and POST for a missing file
    store the content sent; nothing else changes the documents. *)
Record StoreLaws (docs : Env → string → option (string * value)) : Prop := {
  store_get_found : ∀ e rq c s,
    req_method rq = "GET" → docs e (req_url rq) = Some (c, s) →
    ∃ r j e', fetch rq e = (Ok r, e') ∧ ok r = true ∧ json r = Ok j ∧
      get_prop j "content" = Ok (VStr c) ∧ get_prop j "sha" = Ok s ∧
      ∀ u, docs e' u = docs e u;
  store_get_missing : ∀ e rq,
    req_method rq = "GET" → docs e (req_url rq) = None →
    ∃ r e', fetch rq e = (Ok r, e') ∧ ok r = false ∧ status r = 404%Z ∧
      json r ≠ Ok VNull ∧ json r ≠ Ok VUndef ∧
      ∀ u, docs e' u = docs e u;
  store_put : ∀ e rq b c s c',
    req_method rq = "PUT" → req_body rq = Some (VObj b) →
    docs e (req_url rq) = Some (c, s) →
    obj_get b "content" = Some (VStr c') → obj_get b "sha" = Some s →
    ∃ r j e' s', fetch rq e = (Ok r, e') ∧ ok r = true ∧ json r = Ok j ∧
      docs e' (req_url rq) = Some (c', s') ∧
      ∀ u, u ≠ req_url rq → docs e' u = docs e u;
  store_post : ∀ e rq b c',
    req_method rq = "POST" → req_body rq = Some (VObj b) →
    docs e (req_url rq) = None →
    obj_get b "content" = Some (VStr c') →
    ∃ r j e' s', fetch rq e = (Ok r, e') ∧ ok r = true ∧ json r = Ok j ∧
      docs e' (req_url rq) = Some (c', s') ∧
      ∀ u, u ≠ req_url rq → docs e' u = docs e u;
  store_clock : ∀ e u, docs (Date_now e).2 u = docs e u
}.

(** What a read of [path] returns in the state [e] of such a store. *)
Definition read_view (docs : Env → string → option (string * value))
    (e : Env) (path : string) : result value :=
  match docs e (contents_url config path) with
  | Some (c, _) =>
      match decode c with
      | Ok v => Ok v
      | Throw er =>
          if includes "404" (message er) then Ok (getDefaultData path)
          else Throw er
      end
  | None => Ok (getDefaultData path)
  end.

End Contract.

(** The [id] of a record, and the test [p.id === id]. *)
Definition id_of (p : value) : value :=
  match p with
  | VObj fs => default VUndef (obj_get fs "id")
  | _ => VUndef
  end.

Definition has_id (id p : value) : bool := strict_eq (id_of p) id.

(** A record: an object, each of whose keys occurs once. *)
Definition is_record (v : value) : bool :=
  match v with
  | VObj fs => bool_decide (NoDup fs.*1)
  | _ => false
  end.

(** A sequence document: an array of records. *)
Definition is_sequence (l : list value) : bool := forallb is_record l.

(** Field [k] of a record. *)
Definition field (p : value) (k : string) : option value :=
  match p with
  | VObj fs => obj_get fs k
  | _ => None
  end.

(** The invariant of the data model: no two records of a sequence carry
    the same [id]. *)
Definition unique_ids (l : list value) : Prop := NoDup (id_of <$> l).

(** The four sequence documents. *)
Inductive entity : Type := Products | Categories | Orders | Contacts.

Definition entity_path (ent : entity) : string :=
  match ent with
  | Products => "data/products.json"
  | Categories => "data/categories.json"
  | Orders => "data/orders.json"
  | Contacts => "data/contacts.json"
  end.

(** The five paths [getDefaultData] knows. *)
Definition data_paths : list string :=
  ["data/products.json"; "data/categories.json"; "data/orders.json";
   "data/contacts.json"; "data/website.json"].

(** The live documents: the field of a snapshot and the path of each. *)
Definition live_documents : list (string * string) :=
  [("products", "data/products.json"); ("categories", "data/categories.json");
   ("orders", "data/orders.json"); ("contacts", "data/contacts.json");
   ("website", "data/website.json")].


(** The value of [errorData] in [makeRequest], and the message of the
    error it throws for a response that is not ok. *)
Definition error_data (r : Response) : value :=
  match json r with Ok j => j | Throw _ => VObj [] end.

Definition api_error (r : Response) (m : value) : string :=
  "GitHub API Error: " +:+ to_string (VNum (status r)) +:+ " - " +:+
  to_string (js_or m (VStr (statusText r))).

(** The text of the [content] field of a request body. *)
Definition req_content (rq : Request) : option string :=
  match req_body rq with
  | Some (VObj b) =>
      match obj_get b "content" with
      | Some (VStr c) => Some c
      | _ => None
      end
  | _ => None
  end.

(** [{ id: t, ...data }] and [{ ...old, ...patch }]. *)
Definition new_record (t : Z) (data : value) : value :=
  VObj (spread [("id", VNum t)] data).

Definition merge (old patch : value) : value :=
  VObj (spread (spread [] old) patch).

Section Shapes.

Context `{Eng : Engine} `{Rem : Remote}.
Variable config : Config.
Variable docs : Env → string → option (string * value).

(** The data survives [saveFile] followed by [getFile]. *)
Definition round_trips (data : value) : Prop :=
  ∃ c, encode data = Ok c ∧ decode c = Ok data.

(** The reading [Date.now()] gives in a world. *)
Definition reading (w : World) : Z := (Date_now (env w)).1.

(** The world after [rq] was sent in [w] and left the environment in
    [e']. *)
Definition sent (w : World) (rq : Request) (e' : Env) : World :=
  {| env := e'; log := log w ++ [rq] |}.

(** From [w] to [w'] the document at [path] was read twice (by [getFile],
    then by [saveFile]) and written once, with content [c]; no other
    document changed. *)
Definition rewrote (w w' : World) (path c : string) : Prop :=
  ∃ s' wr,
    docs (env w') (contents_url config path) = Some (c, s') ∧
    (∀ u, u ≠ contents_url config path → docs (env w') u = docs (env w) u) ∧
    log w' = log w ++ [get_request config path; get_request config path; wr] ∧
    is_write wr = true ∧ req_url wr = contents_url config path ∧
    req_content wr = Some c.

(** The URL and content of the writes of a log. *)
Definition written (l : list Request) : list (string * option string) :=
  (λ rq, (req_url rq, req_content rq)) <$> writes l.

(** From [w] to [w'] no document changed and nothing was written. *)
Definition quiet (w w' : World) : Prop :=
  (∀ u, docs (env w') u = docs (env w) u) ∧ writes (log w') = writes (log w).

(** From [w] to [w'] the content [c] was written under [path], once, and
    no other document changed. *)
Definition saved (w w' : World) (path c : string) : Prop :=
  (∃ s', docs (env w') (contents_url config path) = Some (c, s')) ∧
  (∀ u, u ≠ contents_url config path → docs (env w') u = docs (env w) u) ∧
  written (log w') = written (log w) ++ [(contents_url config path, Some c)].

(** The record [exportData] assembles. *)
Definition snapshot (t : Z) (products categories orders contacts website : value)
  : value :=
  VObj [("timestamp", VStr (toISOString t)); ("products", products);
        ("categories", categories); ("orders", orders);
        ("contacts", contacts); ("website", website)].


(** The common shape of [addProduct] and [addCategory]. *)
Definition add_record (name path msg : string) (data : value) : M value :=
  let* xs := getFile config path in
  let* t := now in
  let x := VObj (spread [("id", VNum t)] data) in
  let* xs := lift (array_push name xs x) in
  let* _ := saveFile config path xs msg in
  ret x.

(** The common shape of [updateProduct] and [updateCategory]. *)
Definition update_record (name path missing prefix : string)
    (id patch : value) : M value :=
  let* xs := getFile config path in
  let* index := lift (findIndex_id name xs id) in
  if (index =? -1)%Z then throw (JsError missing)
  else
    let xs :=
      array_set xs index
        (VObj (spread (spread [] (array_get xs index)) patch)) in
    let* _ := saveFile config path xs (prefix +:+ to_string id) in
    ret (array_get xs index).

(** The common shape of [deleteProduct], [deleteCategory] and
    [deleteContact]. *)
Definition delete_record (name path prefix : string) (id : value) : M value :=
  let* xs := getFile config path in
  let* filtered := lift (filter_id_ne name xs id) in
  let* _ := saveFile config path filtered (prefix +:+ to_string id) in
  ret (VBool true).

(** The common shape of [saveOrder] and [saveContact]. *)
Definition save_record (name path prefix : string) (data : value) : M value :=
  let* xs := getFile config path in
  let* xs := lift (array_push name xs data) in
  let* id := lift (get_prop data "id") in
  let* _ := saveFile config path xs (prefix +:+ to_string id) in
  ret data.

(** The operations each kind of entity has. *)
Definition get_op (ent : entity) : M value :=
  match ent with
  | Products => getProducts config
  | Categories => getCategories config
  | Orders => getOrders config
  | Contacts => getContacts config
  end.

Definition add_op (ent : entity) : option (value → M value) :=
  match ent with
  | Products => Some (addProduct config)
  | Categories => Some (addCategory config)
  | _ => None
  end.

Definition update_op (ent : entity) : option (value → value → M value) :=
  match ent with
  | Products => Some (updateProduct config)
  | Categories => Some (updateCategory config)
  | _ => None
  end.

Definition delete_op (ent : entity) : option (value → M value) :=
  match ent with
  | Products => Some (deleteProduct config)
  | Categories => Some (deleteCategory config)
  | Contacts => Some (deleteContact config)
  | Orders => None
  end.

Definition save_op (ent : entity) : option (value → M value) :=
  match ent with
  | Orders => Some (saveOrder config)
  | Contacts => Some (saveContact config)
  | _ => None
  end.

(** The message of the error [update] throws for an unknown id. *)
Definition not_found (ent : entity) : option string :=
  match ent with
  | Products => Some "Product not found"
  | Categories => Some "Category not found"
  | _ => None
  end.

End Shapes.

(** ** Sample inputs *)

Module Sample.

Definition config : Config :=
  {| username := VStr "drycout"; repo := VStr "djandes-site";
     token := VStr "ghp_sample" |}.

(** The product of the scenario in the specification. *)
Definition roti : value :=
  VObj [("name", VStr "Roti"); ("categoryId", VNum 1); ("price", VNum 1000);
        ("stock", VNum 5); ("discount", VNum 0)].

(** A world over the in-memory store in which nothing was written yet. *)
Definition fresh : World (Rem := MemStore.remote) :=
  mkWorld (Rem := MemStore.remote) (MemStore.empty 1700000000000) [].

(** A world over the scripted remote side. *)
Definition scripted (replies : list (result Response))
  : World (Rem := Scripted.remote) :=
  mkWorld (Rem := Scripted.remote) (Scripted.mkScript replies 0) [].

(** The world after a method ran in [w]. *)
Definition after {R : Remote} {A} (m : M A) (w : World) : World := (m w).2.

(** A failure that is not a 404 but whose text mentions the digits, and
    the answer to a successful creation. *)
Definition backend_error : Response :=
  respond 500 "Internal Server Error"
    (VObj [("message", VStr "upstream returned 404")]).

Definition created : Response :=
  respond 201 "Created" (VObj [("content", VObj [("sha", VStr "rev0")])]).

(** The answers to a GET of an existing file and to a write that is
    refused with status 404. *)
Definition found : Response :=
  respond 200 "OK" (VObj [("content", VStr "W10="); ("sha", VStr "rev0")]).

Definition refused : Response :=
  respond 404 "Not Found" (VObj [("message", VStr "Not Found")]).

(** A category to add, with and without an id of its own. *)
Definition donat : value :=
  VObj [("name", VStr "Donat"); ("description", VStr "Donat segar")].

Definition donat_7 : value :=
  VObj [("id", VNum 7); ("name", VStr "Donat");
        ("description", VStr "Donat segar")].

(** A patch for a category. *)
Definition renamed : value := VObj [("name", VStr "Kue Basah")].

(** An order, as the shop front hands it to [saveOrder]. *)
Definition order : value :=
  VObj [("id", VNum 1); ("status", VStr "pending")].

(** The content [saveFile] sends for [data]. *)
Definition content_of (data : value) : string :=
  match encode (Eng := RefEngine.engine) data with
  | Ok c => c
  | Throw _ => EmptyString
  end.

End Sample.

(** ** The rest of the class

    The methods no claim is about: the configuration kept in local
    storage, the status of an order, the settings, the first-time setup,
    the connection test, and the backups. *)

(** Further built-ins: [a.localeCompare(b)], [JSON.stringify(v)] without
    indentation, and the text of the TypeError a strict-mode assignment to
    a property of [v] raises when [v] is not an object. *)
Class Library : Type := {
  localeCompare : string → string → Z;
  JSON_stringify_compact : value → option string;
  set_error_message : value → string → string
}.

Section Configuration.

Context `{Eng : Engine} `{Lib : Library}.

(** The object [loadConfig] returns when nothing is saved. *)
Definition default_config : value :=
  VObj [("username", VStr "drycout"); ("repo", VStr "djandes-site");
        ("token", VNull)].

(** [loadConfig()], on the items of [localStorage]. *)
Definition loadConfig (storage : gmap string string) : result value :=
  match storage !! "githubConfig" with
  | Some saved =>
      if truthy (VStr saved) then JSON_parse saved else Ok default_config
  | None => Ok default_config
  end.

(** [saveConfig(config)]: the new [this.config] and the items afterwards. *)
Definition saveConfig (config : value) (storage : gmap string string)
  : value * gmap string string :=
  (config,
   <["githubConfig" :=
       match JSON_stringify_compact config with
       | Some s => s
       | None => "undefined"
       end]> storage).

(** The three properties the class reads of [this.config], when it is not
    null (a null configuration makes every read of them throw). *)
Definition config_of (v : value) : option Config :=
  match get_prop v "username", get_prop v "repo", get_prop v "token" with
  | Ok u, Ok r, Ok t => Some {| username := u; repo := r; token := t |}
  | _, _, _ => None
  end.

End Configuration.

Section Rest.

Context `{Eng : Engine} `{Rem : Remote} `{Lib : Library}.
Variable config : Config.

(** [o.status = x] in strict mode.  An array keeps such a property beside
    its elements, where [JSON.stringify] does not see it and the value
    type has no place for it. *)
Definition set_status (o x : value) : result value :=
  match o with
  | VObj fs => Ok (VObj (obj_set fs "status" x))
  | VArr l => Ok (VArr l)
  | _ => Throw (JsError (set_error_message o "status"))
  end.

(** [updateOrderStatus(orderId, newStatus)]. *)
Definition updateOrderStatus (orderId newStatus : value) : M value :=
  let* orders := getOrders config in
  let* index := lift (findIndex_id "orders" orders orderId) in
  if (index =? -1)%Z then throw (JsError "Order not found")
  else
    let* order := lift (set_status (array_get orders index) newStatus) in
    let orders := array_set orders index order in
    let* _ := saveFile config "data/orders.json" orders
                ("Update order status " +:+ to_string orderId) in
    ret (array_get orders index).

(** [updateWebsiteConfig(configData)]. *)
Definition updateWebsiteConfig (configData : value) : M value :=
  let* _ := saveFile config "data/website.json" configData
              "Update website configuration" in
  ret configData.

(** [initializeData()], with the lines it prints on the console.  The
    saves of the [catch] block are outside any [try]. *)
Definition initialize_defaults : M value :=
  let* _ := saveFile config "data/products.json"
              (getDefaultData "data/products.json")
              "Initialize products data" in
  let* _ := saveFile config "data/categories.json"
              (getDefaultData "data/categories.json")
              "Initialize categories data" in
  let* _ := saveFile config "data/orders.json"
              (getDefaultData "data/orders.json") "Initialize orders data" in
  let* _ := saveFile config "data/contacts.json"
              (getDefaultData "data/contacts.json")
              "Initialize contacts data" in
  let* _ := saveFile config "data/website.json"
              (getDefaultData "data/website.json")
              "Initialize website configuration" in
  ret VUndef.

Definition initializeData (w : World) : (result value * World) * list string :=
  match getProducts config w with
  | (Ok _, w1) => ((Ok VUndef, w1), ["Data already initialized"])
  | (Throw _, w1) =>
      let run := initialize_defaults w1 in
      (run,
       "Initializing data files..." ::
       match run.1 with
       | Ok _ => ["Data files initialized successfully"]
       | Throw _ => []
       end)
  end.

(** [testConnection()]. *)
Definition testConnection : M value :=
  try_catch
    (let* response := makeRequest config "" "GET" VNull in
     let* full_name := lift (get_prop response "full_name") in
     ret (VObj [("success", VBool true);
                ("message", VStr "Connection successful");
                ("repo", full_name)]))
    (λ error,
       ret (VObj [("success", VBool false);
                  ("message", VStr (message error))])).

(** [getRepoInfo()]. *)
Definition getRepoInfo : M value :=
  try_catch
    (let* response := makeRequest config "" "GET" VNull in
     let* name := lift (get_prop response "name") in
     let* full_name := lift (get_prop response "full_name") in
     let* description := lift (get_prop response "description") in
     let* html_url := lift (get_prop response "html_url") in
     let* default_branch := lift (get_prop response "default_branch") in
     ret (VObj [("name", name); ("fullName", full_name);
                ("description", description); ("url", html_url);
                ("defaultBranch", default_branch)]))
    (λ error,
       throw (JsError ("Failed to get repository info: " +:+ message error))).

(** The path of the backup taken when the clock reads [t]. *)
Definition backup_path (t : Z) : string :=
  "backups/backup-" +:+ to_string (VNum t) +:+ ".json".

(** [backupData()]: the clock is read for the timestamp, for the path and
    for the message. *)
Definition backupData : M value :=
  try_catch
    (let* t := now in
     let* products := getProducts config in
     let* categories := getCategories config in
     let* orders := getOrders config in
     let* contacts := getContacts config in
     let* website := getWebsiteConfig config in
     let backup :=
       VObj [("timestamp", VStr (toISOString t)); ("products", products);
             ("categories", categories); ("orders", orders);
             ("contacts", contacts); ("website", website)] in
     let* t1 := now in
     let backupPath := backup_path t1 in
     let* t2 := now in
     let* _ := saveFile config backupPath backup
                 ("Create backup " +:+ to_string (VNum t2)) in
     let* timestamp := lift (get_prop backup "timestamp") in
     ret (VObj [("success", VBool true); ("path", VStr backupPath);
                ("timestamp", timestamp)]))
    (λ error,
       throw (JsError ("Failed to create backup: " +:+ message error))).

(** [s.endsWith(suffix)]. *)
Definition ends_with (suffix s : string) : bool :=
  let n := String.length s in
  let m := String.length suffix in
  (m <=? n)%nat && String.eqb (substring (n - m) m s) suffix.

(** [response.filter(file => file.name.endsWith('.json'))]: a name that is
    not a string has no [endsWith] to call. *)
Fixpoint filter_json (l : list value) : result (list value) :=
  match l with
  | [] => Ok []
  | file :: r =>
      rbind (get_prop file "name") (λ name,
        match name with
        | VStr n =>
            rbind (filter_json r) (λ r',
              Ok (if ends_with ".json" n then file :: r' else r'))
        | VUndef | VNull => Throw (JsError (null_read_message name "endsWith"))
        | _ => Throw (JsError (not_function_message "file.name.endsWith"))
        end)
  end.

(** [file => ({name, path, size, downloadUrl: file.download_url})]. *)
Definition backup_entry (file : value) : result value :=
  rbind (get_prop file "name") (λ name,
  rbind (get_prop file "path") (λ path,
  rbind (get_prop file "size") (λ size,
  rbind (get_prop file "download_url") (λ download_url,
    Ok (VObj [("name", name); ("path", path); ("size", size);
              ("downloadUrl", download_url)]))))).

Fixpoint map_entries (l : list value) : result (list value) :=
  match l with
  | [] => Ok []
  | file :: r =>
      rbind (backup_entry file) (λ x,
        rbind (map_entries r) (λ r', Ok (x :: r')))
  end.

(** The entry of a file that is a record, and the test that the name of a
    file is a string. *)
Definition listed (file : value) : value :=
  VObj [("name", default VUndef (field file "name"));
        ("path", default VUndef (field file "path"));
        ("size", default VUndef (field file "size"));
        ("downloadUrl", default VUndef (field file "download_url"))].

Definition is_named (file : value) : bool :=
  match field file "name" with
  | Some (VStr _) => true
  | _ => false
  end.

(** The name of an entry, which is a string after the filter. *)
Definition entry_name (a : value) : string :=
  match field a "name" with
  | Some (VStr n) => n
  | _ => EmptyString
  end.

(** [(a, b) => b.name.localeCompare(a.name)]. *)
Definition by_name_descending (a b : value) : Z :=
  localeCompare (entry_name b) (entry_name a).

(** [arr.sort(compare)]: the sort is stable, and for a comparator that
    orders the elements consistently its result is the one insertion
    gives. *)
Fixpoint sort_insert (compare : value → value → Z) (x : value)
    (l : list value) : list value :=
  match l with
  | [] => [x]
  | y :: r =>
      if (compare x y <=? 0)%Z then x :: l else y :: sort_insert compare x r
  end.

Definition array_sort (compare : value → value → Z) (l : list value)
  : list value :=
  foldr (sort_insert compare) [] l.

(** [getBackups()]. *)
Definition getBackups : M value :=
  try_catch
    (let* response := makeRequest config "backups" "GET" VNull in
     match response with
     | VArr files =>
         let* kept := lift (filter_json files) in
         let* entries := lift (map_entries kept) in
         ret (VArr (array_sort by_name_descending entries))
     | _ => throw (no_method "response" "filter" response)
     end)
    (λ error,
       if includes "404" (message error) then ret (VArr [])
       else throw error).

(** *** What a method sends *)

(** Every request a method sends satisfies [P]. *)
Definition sends {A} (m : M A) (P : Request → Prop) : Prop :=
  ∀ w, ∃ rs, log (m w).2 = log w ++ rs ∧ Forall P rs.

(** A GET of the document at [path], carrying the headers of the class. *)
Definition reads_at (path : string) (rq : Request) : Prop :=
  rq = get_request config path.

(** A request to the document at [path], carrying the headers of the
    class. *)
Definition goes_to (path : string) (rq : Request) : Prop :=
  req_url rq = contents_url config path ∧
  req_headers rq = request_headers config.

End Rest.

(** Reference versions of the further built-ins. *)
Module RefLibrary.

(** Collation by character codes, which orders the names of the backups
    as the locales do: they differ in their digits only. *)
Definition localeCompare (a b : string) : Z :=
  match String.compare a b with
  | Lt => (-1)%Z
  | Eq => 0%Z
  | Gt => 1%Z
  end.

Fixpoint stringify_compact (v : value) : option string :=
  match v with
  | VUndef => None
  | VNull => Some "null"
  | VBool true => Some "true"
  | VBool false => Some "false"
  | VNum n => Some (pretty n)
  | VStr s => Some (RefEngine.quote s)
  | VArr l =>
      Some ("[" +:+
            join_with ","
              ((fix go (l : list value) : list string :=
                  match l with
                  | [] => []
                  | x :: r => default "null" (stringify_compact x) :: go r
                  end) l) +:+ "]")
  | VObj fs =>
      Some ("{" +:+
            join_with ","
              ((fix go (fs : list (string * value)) : list string :=
                  match fs with
                  | [] => []
                  | (k, x) :: r =>
                      match stringify_compact x with
                      | Some sx => (RefEngine.quote k +:+ ":" +:+ sx) :: go r
                      | None => go r
                      end
                  end) fs) +:+ "}")
  end.

Definition set_error_message (v : value) (k : string) : string :=
  match v with
  | VUndef | VNull =>
      "Cannot set properties of " +:+ to_string v +:+ " (setting '" +:+ k +:+
      "')"
  | _ =>
      "Cannot create property '" +:+ k +:+ "' on " +:+
      match v with
      | VBool _ => "boolean"
      | VNum _ => "number"
      | _ => "string"
      end +:+ " '" +:+ to_string v +:+ "'"
  end.

Definition library : Library :=
  Build_Library localeCompare stringify_compact set_error_message.

End RefLibrary.

(** Further sample inputs. *)
Module MoreSamples.







(** A listing of the backups path. *)
Definition file (name : string) (size : Z) : value :=
  VObj [("name", VStr name); ("path", VStr ("backups/" +:+ name));
        ("sha", VStr "rev0"); ("size", VNum size);
        ("download_url", VStr ("https://raw.example/" +:+ name))].

Definition listing : list value :=
  [file "backup-1700000000000.json" 120; file "README.md" 10;
   file "backup-1800000000000.json" 130].

(** A failure whose body is not JSON. *)
Definition bad_gateway : Response :=
  {| ok := false; status := 502; statusText := "Bad Gateway";
     json := Throw RefEngine.syntax_error |}.

(** A configuration as local storage holds it. *)
Definition saved_config : value :=
  VObj [("username", VStr "drycout"); ("repo", VStr "djandes-site");
        ("token", VStr "ghp_sample")].

Definition saved_config_text : string :=
  match RefLibrary.stringify_compact saved_config with
  | Some s => s
  | None => EmptyString
  end.

End MoreSamples.

(** * Properties *)

(** ** Strings and objects *)

Lemma prefix_append (n s : string) : String.prefix n (n +:+ s) = true.
Proof.
  induction n as [|c n IH]; simpl.
  - by destruct s.
  - destruct (Ascii.ascii_dec c c); [exact IH | congruence].
Qed.

Lemma includes_prefix (n s : string) :
  String.prefix n s = true → includes n s = true.
Proof. intros H. destruct s; cbn [includes]; by rewrite H. Qed.

Lemma includes_append (n a b : string) : includes n (a +:+ n +:+ b) = true.
Proof.
  induction a as [|c a IH].
  - apply includes_prefix, (prefix_append n b).
  - change (String c a +:+ n +:+ b) with (String c (a +:+ n +:+ b)).
    cbn [includes]. rewrite IH. apply orb_true_r.
Qed.

Lemma obj_get_replace_eq fs k v :
  is_Some (obj_get fs k) → obj_get (obj_replace fs k v) k = Some v.
Proof.
  induction fs as [|[k' v'] fs IH]; simpl; intros [x Hx]; [done|].
  destruct (String.eqb k' k) eqn:E; simpl.
  - by rewrite String.eqb_refl.
  - rewrite E. apply IH. eauto.
Qed.

Lemma obj_get_replace_ne fs k v k' :
  k' ≠ k → obj_get (obj_replace fs k v) k' = obj_get fs k'.
Proof.
  intros Hne. induction fs as [|[k0 v0] fs IH]; simpl; [done|].
  destruct (String.eqb k0 k) eqn:E; simpl.
  - apply String.eqb_eq in E as ->.
    by rewrite (proj2 (String.eqb_neq k k')).
  - by rewrite IH.
Qed.

Lemma obj_get_insert_index fs n k v k' :
  obj_get fs k = None →
  obj_get (obj_insert_index fs n k v) k' =
  if String.eqb k k' then Some v else obj_get fs k'.
Proof.
  induction fs as [|[k0 v0] fs IH]; simpl; intros Hnone; [done|].
  destruct (String.eqb k0 k) eqn:E0; [done|].
  destruct (array_index k0) as [m|]; [destruct (m <? n)%N|]; simpl; try done.
  rewrite IH by done.
  destruct (String.eqb k k') eqn:E1; [|done].
  apply String.eqb_eq in E1 as <-. by rewrite E0.
Qed.

Lemma obj_get_app fs gs k :
  obj_get (fs ++ gs) k =
  match obj_get fs k with Some v => Some v | None => obj_get gs k end.
Proof.
  induction fs as [|[k0 v0] fs IH]; simpl; [done|].
  by destruct (String.eqb k0 k).
Qed.

(** Reading [k'] after [o[k] = v]. *)
Lemma obj_get_set fs k v k' :
  obj_get (obj_set fs k v) k' =
  if String.eqb k k' then Some v else obj_get fs k'.
Proof.
  unfold obj_set. destruct (obj_get fs k) as [x|] eqn:Hk.
  - destruct (String.eqb k k') eqn:E.
    + apply String.eqb_eq in E as <-. apply obj_get_replace_eq. eauto.
    + apply obj_get_replace_ne. apply String.eqb_neq in E. congruence.
  - destruct (array_index k) as [n|].
    + by apply obj_get_insert_index.
    + rewrite obj_get_app. simpl. destruct (String.eqb k k') eqn:E.
      * apply String.eqb_eq in E as <-. by rewrite Hk.
      * by destruct (obj_get fs k').
Qed.

Lemma obj_get_None fs k : k ∉ fs.*1 → obj_get fs k = None.
Proof.
  induction fs as [|[k0 v0] fs IH]; simpl; [done|].
  intros Hn. destruct (String.eqb k0 k) eqn:E.
  - apply String.eqb_eq in E as ->. destruct Hn. simpl. constructor.
  - apply IH. intros Hin. apply Hn. simpl. by constructor.
Qed.

Lemma obj_get_fold_set (src target : fields) k :
  NoDup src.*1 →
  obj_get (fold_left (λ acc kv, obj_set acc kv.1 kv.2) src target) k =
  match obj_get src k with Some v => Some v | None => obj_get target k end.
Proof.
  revert target. induction src as [|[k0 v0] src IH]; simpl; intros target Hnd.
  - done.
  - rewrite NoDup_cons in Hnd. destruct Hnd as [Hnot Hnd]. rewrite IH by done.
    rewrite obj_get_set. simpl.
    destruct (String.eqb k0 k) eqn:E.
    + apply String.eqb_eq in E as <-. by rewrite obj_get_None.
    + done.
Qed.

(** A field of [{ ...target, ...src }] is the field of the record [src]
    when it has one, and the field of [target] otherwise. *)
Lemma obj_get_spread target fs k :
  NoDup fs.*1 →
  obj_get (spread target (VObj fs)) k =
  match obj_get fs k with Some v => Some v | None => obj_get target k end.
Proof. apply obj_get_fold_set. Qed.

Lemma is_record_inv v :
  is_record v = true → ∃ fs, v = VObj fs ∧ NoDup fs.*1.
Proof.
  destruct v; simpl; try done. intros H%bool_decide_eq_true. eauto.
Qed.

Lemma is_sequence_lookup l i p :
  is_sequence l = true → l !! i = Some p → is_record p = true.
Proof.
  unfold is_sequence. rewrite forallb_forall. intros H Hl.
  apply H. apply list_elem_of_In. by eapply list_elem_of_lookup_2.
Qed.

(** ** Array methods on sequences of records *)

Section Arrays.

Context `{Eng : Engine}.

Lemma get_prop_id p : is_record p = true → get_prop p "id" = Ok (id_of p).
Proof. intros (fs & -> & _)%is_record_inv. reflexivity. Qed.

Lemma is_sequence_cons p l :
  is_sequence (p :: l) = true ↔ is_record p = true ∧ is_sequence l = true.
Proof. unfold is_sequence. simpl. apply andb_true_iff. Qed.

(** [findIndex] returns the position of the first record with the id. *)
Lemma findIndex_from_first l id i old z :
  is_sequence l = true → l !! i = Some old → has_id id old = true →
  (∀ j p, j < i → l !! j = Some p → has_id id p = false) →
  findIndex_from l id z = Ok (z + Z.of_nat i)%Z.
Proof.
  revert i z. induction l as [|p l IH]; intros i z Hseq Hi Hold Hfirst.
  - done.
  - apply is_sequence_cons in Hseq as [Hp Hseq]. simpl.
    rewrite (get_prop_id p Hp). simpl. destruct i as [|i].
    + simplify_eq/=. unfold has_id in Hold. rewrite Hold. f_equal. lia.
    + assert (has_id id p = false) as Hne by (apply (Hfirst 0); [lia|done]).
      unfold has_id in Hne. rewrite Hne.
      rewrite (IH i (z + 1)%Z); [f_equal; lia|done..|].
      intros j q Hj Hq. apply (Hfirst (S j)); [lia|done].
Qed.


(** [filter] keeps the records whose id differs. *)
Lemma filter_from_records l id :
  is_sequence l = true →
  filter_from l id = Ok (filter (λ p, has_id id p = false) l).
Proof.
  induction l as [|p l IH]; intros Hseq; [done|].
  apply is_sequence_cons in Hseq as [Hp Hseq]. simpl.
  rewrite (get_prop_id p Hp), (IH Hseq). simpl.
  rewrite filter_cons. fold (has_id id p).
  by destruct (has_id id p) eqn:E.
Qed.

Lemma filter_absent (l : list value) id :
  (∀ p, p ∈ l → has_id id p = false) →
  filter (λ p, has_id id p = false) l = l.
Proof.
  induction l as [|p l IH]; intros Hall; [done|].
  rewrite filter_cons, decide_True by (apply Hall; constructor).
  f_equal. apply IH. intros q Hq. apply Hall. by constructor.
Qed.

End Arrays.

(** ** Requests against a store that keeps its contract *)

Section Store.

Context `{Eng : Engine} `{Rem : Remote}.
Variable config : Config.
Variable docs : Env → string → option (string * value).
Hypothesis laws : StoreLaws docs.
Hypothesis configured : truthy (token config) = true.

Local Abbreviation url := (contents_url config).

Lemma status_404_text : to_string (VNum 404) = "404".
Proof. reflexivity. Qed.

Lemma makeRequest_found w path c s :
  docs (env w) (url path) = Some (c, s) →
  ∃ j w', makeRequest config path "GET" VNull w = (Ok j, w') ∧
    get_prop j "content" = Ok (VStr c) ∧ get_prop j "sha" = Ok s ∧
    (∀ u, docs (env w') u = docs (env w) u) ∧
    log w' = log w ++ [get_request config path].
Proof using laws configured.
  intros Hd. unfold makeRequest. rewrite configured. cbn [negb truthy andb].
  fold (get_request config path).
  destruct (store_get_found docs laws (env w) (get_request config path) c s)
    as (r & j & e' & Hf & Hok & Hj & Hc & Hs & Hsame); [done..|].
  unfold bind, do_fetch. rewrite Hf, Hok. cbn [negb]. unfold lift. rewrite Hj.
  eauto 10.
Qed.

Lemma makeRequest_missing w path :
  docs (env w) (url path) = None →
  ∃ m w', makeRequest config path "GET" VNull w = (Throw (JsError m), w') ∧
    includes "404" m = true ∧
    (∀ u, docs (env w') u = docs (env w) u) ∧
    log w' = log w ++ [get_request config path].
Proof using laws configured.
  intros Hd. unfold makeRequest. rewrite configured. cbn [negb truthy andb].
  fold (get_request config path).
  destruct (store_get_missing docs laws (env w) (get_request config path))
    as (r & e' & Hf & Hok & Hst & Hn1 & Hn2 & Hsame); [done..|].
  unfold bind, do_fetch. rewrite Hf, Hok, Hst. cbn [negb]. unfold lift.
  assert (∃ m, get_prop match json r with Ok j => j | Throw _ => VObj [] end
                 "message" = Ok m) as [m Hm].
  { destruct (json r) as [[]|]; simpl; eauto; congruence. }
  rewrite Hm. unfold throw. eexists _, _. split; [reflexivity|].
  split; [|done]. rewrite status_404_text. apply includes_append.
Qed.

Lemma makeRequest_put w path msg c' c s :
  docs (env w) (url path) = Some (c, s) →
  ∃ j w' s',
    makeRequest config path "PUT"
      (VObj [("message", VStr msg); ("content", VStr c'); ("sha", s)]) w
    = (Ok j, w') ∧
    docs (env w') (url path) = Some (c', s') ∧
    (∀ u, u ≠ url path → docs (env w') u = docs (env w) u) ∧
    log w' = log w ++ [write_request config "PUT" path msg c' (Some s)].
Proof using laws configured.
  intros Hd. unfold makeRequest. rewrite configured. cbn [negb truthy andb].
  change (String.eqb "PUT" "POST" || String.eqb "PUT" "PUT") with true.
  cbn match.
  change (mkRequest _ _ _ _)
    with (write_request config "PUT" path msg c' (Some s)).
  destruct (store_put docs laws (env w)
              (write_request config "PUT" path msg c' (Some s))
              [("message", VStr msg); ("content", VStr c'); ("sha", s)]
              c s c')
    as (r & j & e' & s' & Hf & Hok & Hj & Hnew & Hsame); [done..|].
  unfold bind, do_fetch. rewrite Hf, Hok. cbn [negb]. unfold lift. rewrite Hj.
  eauto 10.
Qed.

Lemma makeRequest_post w path msg c' :
  docs (env w) (url path) = None →
  ∃ j w' s',
    makeRequest config path "POST"
      (VObj [("message", VStr msg); ("content", VStr c')]) w
    = (Ok j, w') ∧
    docs (env w') (url path) = Some (c', s') ∧
    (∀ u, u ≠ url path → docs (env w') u = docs (env w) u) ∧
    log w' = log w ++ [write_request config "POST" path msg c' None].
Proof using laws configured.
  intros Hd. unfold makeRequest. rewrite configured. cbn [negb truthy andb].
  change (String.eqb "POST" "POST" || String.eqb "POST" "PUT") with true.
  cbn match.
  change (mkRequest _ _ _ _)
    with (write_request config "POST" path msg c' None).
  destruct (store_post docs laws (env w)
              (write_request config "POST" path msg c' None)
              [("message", VStr msg); ("content", VStr c')] c')
    as (r & j & e' & s' & Hf & Hok & Hj & Hnew & Hsame); [done..|].
  unfold bind, do_fetch. rewrite Hf, Hok. cbn [negb]. unfold lift. rewrite Hj.
  eauto 10.
Qed.

(** [getFile] returns the view of the document and changes no document. *)
Lemma getFile_view w path :
  ∃ w', getFile config path w = (read_view config docs (env w) path, w') ∧
    (∀ u, docs (env w') u = docs (env w) u) ∧
    log w' = log w ++ [get_request config path].
Proof using laws configured.
  unfold getFile, try_catch, bind, read_view.
  destruct (docs (env w) (url path)) as [[c s]|] eqn:Hd.
  - destruct (makeRequest_found w path c s Hd)
      as (j & w' & Hm & Hc & Hs & Hsame & Hlog).
    rewrite Hm. unfold lift. rewrite Hc. cbn [to_string].
    unfold decode, rbind.
    destruct (atob c) as [content|er].
    + destruct (JSON_parse content) as [v|er]; [eauto|].
      unfold ret, throw. destruct (includes "404" (message er)); eauto.
    + unfold ret, throw. destruct (includes "404" (message er)); eauto.
  - destruct (makeRequest_missing w path Hd) as (m & w' & Hm & Hi & Hsame & Hlog).
    rewrite Hm. cbn [message]. rewrite Hi. unfold ret. eauto.
Qed.

(** [saveFile] stores the encoded data under the path: an update with the
    current token when the document exists, a creation otherwise. *)
Lemma saveFile_store w path data msg c :
  encode data = Ok c →
  ∃ j w' s', saveFile config path data msg w = (Ok j, w') ∧
    docs (env w') (url path) = Some (c, s') ∧
    (∀ u, u ≠ url path → docs (env w') u = docs (env w) u) ∧
    log w' = log w ++
      [get_request config path;
       match docs (env w) (url path) with
       | Some (_, s) => write_request config "PUT" path msg c (Some s)
       | None => write_request config "POST" path msg c None
       end].
Proof using laws configured.
  intros Henc. unfold saveFile, bind at 1. unfold encode in Henc.
  unfold lift at 1. rewrite Henc. unfold try_catch, bind.
  destruct (docs (env w) (url path)) as [[c0 s]|] eqn:Hd.
  - destruct (makeRequest_found w path c0 s Hd)
      as (j & w1 & Hm & Hc & Hs & Hsame & Hlog).
    rewrite Hm. unfold lift. rewrite Hs.
    destruct (makeRequest_put w1 path msg c c0 s) as
      (j2 & w2 & s' & Hm2 & Hnew & Hsame2 & Hlog2).
    { by rewrite Hsame. }
    rewrite Hm2. eexists j2, w2, s'. split_and!; [done..| |].
    + intros u Hu. by rewrite Hsame2, Hsame.
    + by rewrite Hlog2, Hlog, <- app_assoc.
  - destruct (makeRequest_missing w path Hd) as (m & w1 & Hm & Hi & Hsame & Hlog).
    rewrite Hm. cbn [message]. rewrite Hi.
    destruct (makeRequest_post w1 path msg c) as
      (j2 & w2 & s' & Hm2 & Hnew & Hsame2 & Hlog2).
    { by rewrite Hsame. }
    rewrite Hm2. eexists j2, w2, s'. split_and!; [done..| |].
    + intros u Hu. by rewrite Hsame2, Hsame.
    + by rewrite Hlog2, Hlog, <- app_assoc.
Qed.

(** A read of a document whose content decodes returns the decoded value. *)
Lemma read_view_stored e path c s v :
  docs e (url path) = Some (c, s) → decode c = Ok v →
  read_view config docs e path = Ok v.
Proof. intros Hd Hdec. unfold read_view. by rewrite Hd, Hdec. Qed.

Lemma read_view_same e e' path :
  (∀ u, docs e' u = docs e u) →
  read_view config docs e' path = read_view config docs e path.
Proof. intros H. unfold read_view. by rewrite H. Qed.

(** ** The entity operations against such a store *)

Lemma is_write_get path : is_write (get_request config path) = false.
Proof. reflexivity. Qed.

Lemma save_after_read w0 w1 path data msg c :
  (∀ u, docs (env w1) u = docs (env w0) u) →
  log w1 = log w0 ++ [get_request config path] →
  encode data = Ok c →
  ∃ j w', saveFile config path data msg w1 = (Ok j, w') ∧
    rewrote config docs w0 w' path c.
Proof using laws configured.
  intros Hsame Hlog Henc.
  destruct (saveFile_store w1 path data msg c Henc)
    as (j & w' & s' & Hs & Hnew & Hsame' & Hlog').
  exists j, w'. split; [done|]. eexists s', _. split_and!.
  - done.
  - intros u Hu. by rewrite Hsame', Hsame.
  - rewrite Hlog', Hlog, <- app_assoc. reflexivity.
  - by destruct (docs (env w1) (url path)) as [[? ?]|].
  - by destruct (docs (env w1) (url path)) as [[? ?]|].
  - by destruct (docs (env w1) (url path)) as [[? ?]|].
Qed.

Lemma add_record_run w name path msg data l c :
  read_view config docs (env w) path = Ok (VArr l) →
  let x := new_record (reading (getFile config path w).2) data in
  encode (VArr (l ++ [x])) = Ok c →
  ∃ w', add_record config name path msg data w = (Ok x, w') ∧
    rewrote config docs w w' path c.
Proof using laws configured.
  intros Hview x Henc. subst x. unfold add_record, bind.
  destruct (getFile_view w path) as (w1 & Hg & Hsame1 & Hlog1).
  rewrite Hg in *. cbn [snd] in Henc |- *. rewrite Hview.
  unfold now, reading in *.
  pose proof (store_clock docs laws (env w1)) as Hclock.
  destruct (Date_now (env w1)) as [t e2]. cbn [fst snd] in *.
  unfold lift. cbn [array_push]. fold (new_record t data).
  destruct (save_after_read w {| env := e2; log := log w1 |} path
              (VArr (l ++ [new_record t data])) msg c)
    as (j & w' & Hs & Hre); [|done..|].
  { intros u. cbn [env]. by rewrite Hclock. }
  rewrite Hs. unfold ret. eauto.
Qed.

Lemma update_record_run w name path missing prefix id patch l i old c :
  read_view config docs (env w) path = Ok (VArr l) →
  is_sequence l = true → l !! i = Some old → has_id id old = true →
  (∀ j p, j < i → l !! j = Some p → has_id id p = false) →
  encode (VArr (<[i := merge old patch]> l)) = Ok c →
  ∃ w', update_record config name path missing prefix id patch w
        = (Ok (merge old patch), w') ∧
    rewrote config docs w w' path c.
Proof using laws configured.
  intros Hview Hseq Hi Hold Hfirst Henc. unfold update_record, bind.
  destruct (getFile_view w path) as (w1 & Hg & Hsame1 & Hlog1).
  rewrite Hg, Hview. unfold lift. cbn [findIndex_id].
  rewrite (findIndex_from_first l id i old 0 Hseq Hi Hold Hfirst).
  rewrite Z.add_0_l. destruct (Z.eqb_spec (Z.of_nat i) (-1)); [lia|].
  cbn [array_get array_set]. rewrite Nat2Z.id, Hi.
  change (default VUndef (Some old)) with old. fold (merge old patch).
  destruct (save_after_read w w1 path (VArr (<[i := merge old patch]> l))
              (prefix +:+ to_string id) c)
    as (j & w' & Hs & Hre); [done..|].
  rewrite Hs. unfold ret.
  rewrite list_lookup_insert_eq by (by eapply lookup_lt_Some). eauto.
Qed.


Lemma delete_record_run w name path prefix id l c :
  read_view config docs (env w) path = Ok (VArr l) →
  is_sequence l = true →
  encode (VArr (filter (λ p, has_id id p = false) l)) = Ok c →
  ∃ w', delete_record config name path prefix id w = (Ok (VBool true), w') ∧
    rewrote config docs w w' path c.
Proof using laws configured.
  intros Hview Hseq Henc. unfold delete_record, bind.
  destruct (getFile_view w path) as (w1 & Hg & Hsame1 & Hlog1).
  rewrite Hg, Hview. unfold lift. cbn [filter_id_ne].
  rewrite (filter_from_records l id Hseq). cbn [rbind].
  destruct (save_after_read w w1 path
              (VArr (filter (λ p, has_id id p = false) l))
              (prefix +:+ to_string id) c)
    as (j & w' & Hs & Hre); [done..|].
  rewrite Hs. unfold ret. eauto.
Qed.

Lemma save_record_run w name path prefix data l c :
  read_view config docs (env w) path = Ok (VArr l) →
  is_record data = true →
  encode (VArr (l ++ [data])) = Ok c →
  ∃ w', save_record config name path prefix data w = (Ok data, w') ∧
    rewrote config docs w w' path c.
Proof using laws configured.
  intros Hview Hrec Henc. unfold save_record, bind.
  destruct (getFile_view w path) as (w1 & Hg & Hsame1 & Hlog1).
  rewrite Hg, Hview. unfold lift. cbn [array_push].
  rewrite (get_prop_id data Hrec).
  destruct (save_after_read w w1 path (VArr (l ++ [data]))
              (prefix +:+ to_string (id_of data)) c)
    as (j & w' & Hs & Hre); [done..|].
  rewrite Hs. unfold ret. eauto.
Qed.

(** After a rewrite, a read returns the data whose encoding was stored. *)
Lemma rewrote_read w w' path c v :
  rewrote config docs w w' path c → decode c = Ok v →
  (getFile config path w').1 = Ok v.
Proof using laws configured.
  intros (s' & wr & Hnew & _) Hdec.
  destruct (getFile_view w' path) as (w2 & Hg & _). rewrite Hg. cbn [fst].
  by eapply read_view_stored.
Qed.

Lemma rewrote_writes w w' path c :
  rewrote config docs w w' path c →
  ∃ wr, writes (log w') = writes (log w) ++ [wr] ∧
    req_url wr = url path ∧ req_content wr = Some c.
Proof.
  intros (s' & wr & _ & _ & Hlog & Hw & Hu & Hc). exists wr.
  split; [|done]. unfold writes. rewrite Hlog, List.filter_app.
  cbn [List.filter]. rewrite is_write_get, Hw. reflexivity.
Qed.

End Store.

(** ** The in-memory store keeps the contract *)

Lemma MemStore_laws `{Eng : Engine} :
  StoreLaws (Rem := MemStore.remote) MemStore.docs.
Proof.
  split.
  - intros e rq c s Hm Hd. unfold MemStore.docs in Hd. cbn [fetch MemStore.remote].
    unfold MemStore.fetch. rewrite Hm. cbn [String.eqb].
    change (String.eqb "GET" "GET") with true. cbn match.
    destruct (MemStore.files e !! req_url rq) as [[c0 s0]|]; [|done].
    simplify_eq/=. eexists _, _, _. split; [reflexivity|]. by split_and!.
  - intros e rq Hm Hd. unfold MemStore.docs in Hd. cbn [fetch MemStore.remote].
    unfold MemStore.fetch. rewrite Hm.
    change (String.eqb "GET" "GET") with true. cbn match.
    destruct (MemStore.files e !! req_url rq) as [[c0 s0]|]; [done|].
    eexists _, _. split; [reflexivity|]. by split_and!.
  - intros e rq b c s c' Hm Hb Hd Hc Hs. unfold MemStore.docs in *.
    cbn [fetch MemStore.remote]. unfold MemStore.fetch. rewrite Hm, Hb, Hc, Hs.
    change (String.eqb "PUT" "GET") with false.
    change (String.eqb "PUT" "PUT") with true. cbn match. cbn [orb].
    destruct (MemStore.files e !! req_url rq) as [[c0 s0]|]; [|done].
    simplify_eq/=. rewrite String.eqb_refl.
    eexists _, _, _, _. split; [reflexivity|]. split_and!; [done..| |].
    + cbn. by rewrite lookup_insert_eq.
    + intros u Hu. cbn. by rewrite lookup_insert_ne.
  - intros e rq b c' Hm Hb Hd Hc. unfold MemStore.docs in *.
    cbn [fetch MemStore.remote]. unfold MemStore.fetch. rewrite Hm, Hb, Hc.
    change (String.eqb "POST" "GET") with false.
    change (String.eqb "POST" "PUT") with false.
    change (String.eqb "POST" "POST") with true. cbn match. cbn [orb].
    destruct (MemStore.files e !! req_url rq) as [[c0 s0]|]; [done|].
    eexists _, _, _, _. split; [reflexivity|]. split_and!; [done..| |].
    + cbn. by rewrite lookup_insert_eq.
    + intros u Hu. cbn. by rewrite lookup_insert_ne.
  - done.
Qed.

(** Distinct paths have distinct URLs. *)
Lemma contents_url_inj config p q :
  contents_url config p = contents_url config q → p = q.
Proof.
  unfold contents_url. intros H.
  by repeat (apply String.app_inj in H).
Qed.

(** ** Documents against any remote side *)

Section AnyRemote.

Context `{Eng : Engine} `{Rem : Remote}.
Variable config : Config.
Hypothesis configured : truthy (token config) = true.

(** A GET that resolves to an ok response returns its body. *)
Lemma makeRequest_get_ok w path r e' :
  fetch (get_request config path) (env w) = (Ok r, e') → ok r = true →
  makeRequest config path "GET" VNull w
  = (json r, sent w (get_request config path) e').
Proof using configured.
  intros Hf Hok. unfold makeRequest. rewrite configured. cbn [negb truthy andb].
  fold (get_request config path). unfold bind, do_fetch.
  rewrite Hf, Hok. reflexivity.
Qed.

(** A GET that resolves to a response that is not ok throws the API
    error. *)
Lemma makeRequest_get_error w path r e' m :
  fetch (get_request config path) (env w) = (Ok r, e') → ok r = false →
  get_prop (error_data r) "message" = Ok m →
  makeRequest config path "GET" VNull w
  = (Throw (JsError (api_error r m)), sent w (get_request config path) e').
Proof using configured.
  intros Hf Hok Hm. unfold makeRequest. rewrite configured.
  cbn [negb truthy andb]. fold (get_request config path).
  unfold bind, do_fetch. rewrite Hf, Hok. cbn [negb]. unfold lift.
  fold (error_data r). rewrite Hm. reflexivity.
Qed.

(** A write that resolves to an ok response returns its body. *)
Lemma makeRequest_write_ok w method path msg c sha r e' :
  method = "PUT" ∨ method = "POST" →
  let rq := write_request config method path msg c sha in
  fetch rq (env w) = (Ok r, e') → ok r = true →
  makeRequest config path method
    (VObj ([("message", VStr msg); ("content", VStr c)] ++
           match sha with Some s => [("sha", s)] | None => [] end)) w
  = (json r, sent w rq e').
Proof using configured.
  intros Hmeth rq Hf Hok. unfold makeRequest. rewrite configured.
  cbn [negb truthy andb].
  assert (String.eqb method "POST" || String.eqb method "PUT" = true) as ->.
  { by destruct Hmeth as [-> | ->]. }
  fold (write_request config method path msg c sha). fold rq.
  unfold bind, do_fetch. rewrite Hf, Hok. reflexivity.
Qed.

Lemma api_error_404 r m : status r = 404%Z → includes "404" (api_error r m) = true.
Proof. intros Hst. unfold api_error. rewrite Hst. apply includes_append. Qed.

(** [getFile] on success: the content, base64-decoded and parsed. *)
Lemma getFile_decodes w path r e' j c v :
  fetch (get_request config path) (env w) = (Ok r, e') → ok r = true →
  json r = Ok j → get_prop j "content" = Ok (VStr c) → decode c = Ok v →
  getFile config path w = (Ok v, sent w (get_request config path) e').
Proof using configured.
  intros Hf Hok Hj Hc Hdec. unfold getFile, try_catch, bind.
  rewrite (makeRequest_get_ok w path r e' Hf Hok), Hj. unfold lift.
  rewrite Hc. cbn [to_string]. unfold decode, rbind in Hdec.
  destruct (atob c) as [content|]; [|done]. by rewrite Hdec.
Qed.

(** [getFile] on a 404: the default document of the path. *)
Lemma getFile_404_default w path r e' m :
  fetch (get_request config path) (env w) = (Ok r, e') → ok r = false →
  status r = 404%Z → get_prop (error_data r) "message" = Ok m →
  getFile config path w
  = (Ok (getDefaultData path), sent w (get_request config path) e').
Proof using configured.
  intros Hf Hok Hst Hm. unfold getFile, try_catch, bind.
  rewrite (makeRequest_get_error w path r e' m Hf Hok Hm). cbn [message].
  by rewrite api_error_404.
Qed.

(** [getFile] on a failure whose message does not contain 404: the error
    propagates. *)
Lemma getFile_propagates w path r e' m :
  fetch (get_request config path) (env w) = (Ok r, e') → ok r = false →
  get_prop (error_data r) "message" = Ok m →
  includes "404" (api_error r m) = false →
  getFile config path w
  = (Throw (JsError (api_error r m)), sent w (get_request config path) e').
Proof using configured.
  intros Hf Hok Hm Hno. unfold getFile, try_catch, bind.
  rewrite (makeRequest_get_error w path r e' m Hf Hok Hm). cbn [message].
  by rewrite Hno.
Qed.

(** [saveFile] when the read succeeds and the update is accepted: one GET,
    then one PUT carrying the token read. *)
Lemma saveFile_updates w path data msg c r e1 j s r2 e2 j2 :
  encode data = Ok c →
  fetch (get_request config path) (env w) = (Ok r, e1) → ok r = true →
  json r = Ok j → get_prop j "sha" = Ok s →
  fetch (write_request config "PUT" path msg c (Some s)) e1 = (Ok r2, e2) →
  ok r2 = true → json r2 = Ok j2 →
  saveFile config path data msg w
  = (Ok j2,
     sent (sent w (get_request config path) e1)
       (write_request config "PUT" path msg c (Some s)) e2).
Proof using configured.
  intros Henc Hf Hok Hj Hs Hf2 Hok2 Hj2. unfold saveFile, bind at 1.
  unfold encode in Henc. unfold lift at 1. rewrite Henc.
  unfold try_catch, bind.
  rewrite (makeRequest_get_ok w path r e1 Hf Hok), Hj. unfold lift. rewrite Hs.
  rewrite (makeRequest_write_ok _ "PUT" path msg c (Some s) r2 e2);
    [|by left|done..].
  by rewrite Hj2.
Qed.

(** [saveFile] when the read fails with a 404: one GET, then one POST
    without a token. *)
Lemma saveFile_creates w path data msg c r e1 m r2 e2 :
  encode data = Ok c →
  fetch (get_request config path) (env w) = (Ok r, e1) → ok r = false →
  status r = 404%Z → get_prop (error_data r) "message" = Ok m →
  fetch (write_request config "POST" path msg c None) e1 = (Ok r2, e2) →
  ok r2 = true →
  saveFile config path data msg w
  = (json r2,
     sent (sent w (get_request config path) e1)
       (write_request config "POST" path msg c None) e2).
Proof using configured.
  intros Henc Hf Hok Hst Hm Hf2 Hok2. unfold saveFile, bind at 1.
  unfold encode in Henc. unfold lift at 1. rewrite Henc.
  unfold try_catch, bind.
  rewrite (makeRequest_get_error w path r e1 m Hf Hok Hm). cbn [message].
  rewrite api_error_404 by done.
  by rewrite (makeRequest_write_ok _ "POST" path msg c None r2 e2);
    [|by right|done..].
Qed.

(** [saveFile] when the read fails and the message does not contain 404:
    the error propagates and only the GET was sent. *)
Lemma saveFile_propagates w path data msg c r e1 m :
  encode data = Ok c →
  fetch (get_request config path) (env w) = (Ok r, e1) → ok r = false →
  get_prop (error_data r) "message" = Ok m →
  includes "404" (api_error r m) = false →
  saveFile config path data msg w
  = (Throw (JsError (api_error r m)), sent w (get_request config path) e1).
Proof using configured.
  intros Henc Hf Hok Hm Hno. unfold saveFile, bind at 1.
  unfold encode in Henc. unfold lift at 1. rewrite Henc.
  unfold try_catch, bind.
  rewrite (makeRequest_get_error w path r e1 m Hf Hok Hm). cbn [message].
  by rewrite Hno.
Qed.

Lemma getDefaultData_unknown path : path ∉ data_paths → getDefaultData path = VNull.
Proof.
  intros Hn. unfold getDefaultData, data_paths in *.
  rewrite !not_elem_of_cons in Hn. destruct Hn as (H1 & H2 & H3 & H4 & H5 & _).
  by rewrite !(proj2 (String.eqb_neq _ _)).
Qed.

End AnyRemote.

(** ** Uniqueness of ids *)

Lemma strict_eq_eq a b : strict_eq a b = true → a = b.
Proof.
  destruct a, b; simpl; try done.
  - intros ->%Bool.eqb_prop. done.
  - intros ->%Z.eqb_eq. done.
  - intros ->%String.eqb_eq. done.
Qed.

Lemma unique_ids_snoc l x :
  unique_ids l → id_of x ∉ id_of <$> l → unique_ids (l ++ [x]).
Proof.
  unfold unique_ids. intros Hl Hx. rewrite fmap_app. apply NoDup_app.
  split_and!; [done| |apply NoDup_singleton].
  intros y Hy Hin. apply list_elem_of_singleton in Hin as ->. done.
Qed.

Lemma unique_ids_filter (P : value → Prop) `{∀ p, Decision (P p)} l :
  unique_ids l → unique_ids (filter P l).
Proof.
  unfold unique_ids. intros Hl. eapply sublist_NoDup; [exact Hl|].
  apply fmap_sublist, sublist_filter.
Qed.

Lemma unique_ids_insert l i old x :
  l !! i = Some old → id_of x = id_of old →
  unique_ids l → unique_ids (<[i := x]> l).
Proof.
  unfold unique_ids. intros Hi Hid Hl.
  rewrite list_fmap_insert, Hid, list_insert_id; [done|].
  by rewrite list_lookup_fmap, Hi.
Qed.

(** With unique ids, the record that has the id is the first that has it. *)
Lemma unique_ids_first l i old id :
  unique_ids l → l !! i = Some old → has_id id old = true →
  ∀ j p, j < i → l !! j = Some p → has_id id p = false.
Proof.
  intros Hl Hi Hold j p Hj Hp.
  destruct (has_id id p) eqn:E; [|done]. exfalso.
  apply strict_eq_eq in Hold, E.
  assert (j = i); [|lia].
  eapply NoDup_lookup; [exact Hl| |].
  - by rewrite list_lookup_fmap, Hp.
  - rewrite list_lookup_fmap, Hi. simpl. congruence.
Qed.

(** ** Where the requests of a method go *)

Section Touches.

Context `{Eng : Engine} `{Rem : Remote}.
Variable config : Config.














End Touches.

(** ** Export and import against a store that keeps its contract *)

Section Snapshots.

Context `{Eng : Engine} `{Rem : Remote}.
Variable config : Config.
Variable docs : Env → string → option (string * value).
Hypothesis laws : StoreLaws docs.
Hypothesis configured : truthy (token config) = true.

Lemma quiet_trans w1 w2 w3 :
  quiet docs w1 w2 → quiet docs w2 w3 → quiet docs w1 w3.
Proof.
  intros [H1 L1] [H2 L2]. split; [|congruence].
  intros u. by rewrite H2, H1.
Qed.

Lemma read_view_quiet w w' path :
  quiet docs w w' →
  read_view config docs (env w') path = read_view config docs (env w) path.
Proof. intros [H _]. by apply read_view_same. Qed.

Lemma now_run w : ∃ w', now w = (Ok (reading w), w') ∧ quiet docs w w'.
Proof using laws.
  unfold now, reading. pose proof (store_clock docs laws (env w)) as Hc.
  destruct (Date_now (env w)) as [t e']. eexists. split; [done|].
  split; [exact Hc|done].
Qed.

Lemma getFile_run w path v :
  read_view config docs (env w) path = Ok v →
  ∃ w', getFile config path w = (Ok v, w') ∧ quiet docs w w'.
Proof using laws configured.
  intros Hview.
  destruct (getFile_view config docs laws configured w path)
    as (w' & Hg & Hsame & Hlog).
  exists w'. rewrite Hg, Hview. split; [done|]. split; [done|].
  unfold writes. rewrite Hlog, List.filter_app. apply app_nil_r.
Qed.

Lemma saveFile_run w path data msg c :
  encode data = Ok c →
  ∃ j w', saveFile config path data msg w = (Ok j, w') ∧
    saved config docs w w' path c.
Proof using laws configured.
  intros Henc.
  destruct (saveFile_store config docs laws configured w path data msg c Henc)
    as (j & w' & s' & Hs & Hnew & Hsame & Hlog).
  exists j, w'. split; [done|]. split_and!; [by eexists|done|].
  unfold written, writes. rewrite Hlog, List.filter_app, fmap_app. f_equal.
  by destruct (docs (env w) (contents_url config path)) as [[? ?]|].
Qed.

(** [exportData] reads the five documents and changes nothing. *)
Lemma exportData_run w products categories orders contacts website :
  read_view config docs (env w) "data/products.json" = Ok products →
  read_view config docs (env w) "data/categories.json" = Ok categories →
  read_view config docs (env w) "data/orders.json" = Ok orders →
  read_view config docs (env w) "data/contacts.json" = Ok contacts →
  read_view config docs (env w) "data/website.json" = Ok website →
  ∃ w', exportData config w
        = (Ok (snapshot (reading w) products categories orders contacts
                 website), w') ∧
    quiet docs w w'.
Proof using laws configured.
  intros Hp Hc Ho Hk Hs. unfold exportData, try_catch, bind.
  destruct (now_run w) as (w0 & -> & Q0).
  destruct (getFile_run w0 "data/products.json" products)
    as (w1 & H1 & Q1); [by rewrite (read_view_quiet w w0)|].
  unfold getProducts. rewrite H1.
  pose proof (quiet_trans _ _ _ Q0 Q1) as Q01.
  destruct (getFile_run w1 "data/categories.json" categories)
    as (w2 & H2 & Q2); [by rewrite (read_view_quiet w w1)|].
  unfold getCategories. rewrite H2.
  pose proof (quiet_trans _ _ _ Q01 Q2) as Q02.
  destruct (getFile_run w2 "data/orders.json" orders)
    as (w3 & H3 & Q3); [by rewrite (read_view_quiet w w2)|].
  unfold getOrders. rewrite H3.
  pose proof (quiet_trans _ _ _ Q02 Q3) as Q03.
  destruct (getFile_run w3 "data/contacts.json" contacts)
    as (w4 & H4 & Q4); [by rewrite (read_view_quiet w w3)|].
  unfold getContacts. rewrite H4.
  pose proof (quiet_trans _ _ _ Q03 Q4) as Q04.
  destruct (getFile_run w4 "data/website.json" website)
    as (w5 & H5 & Q5); [by rewrite (read_view_quiet w w4)|].
  unfold getWebsiteConfig. rewrite H5.
  exists w5. split; [done|]. by eapply quiet_trans.
Qed.

Lemma bind_eq {A B} (m : M A) (k : A → M B) w a w' :
  m w = (Ok a, w') → bind m k w = k a w'.
Proof. intros H. unfold bind. by rewrite H. Qed.

Lemma try_catch_ok {A} (m : M A) (h : exn → M A) w a w' :
  m w = (Ok a, w') → try_catch m h w = (Ok a, w').
Proof. intros H. unfold try_catch. by rewrite H. Qed.




Lemma saved_here w w' path c v :
  saved config docs w w' path c → decode c = Ok v →
  read_view config docs (env w') path = Ok v.
Proof. intros ([s' Hs] & _ & _) Hdec. by eapply read_view_stored. Qed.

Lemma saved_elsewhere w w' path c other :
  saved config docs w w' path c → other ≠ path →
  read_view config docs (env w') other = read_view config docs (env w) other.
Proof.
  intros (_ & Hsame & _) Hne. unfold read_view. rewrite Hsame; [done|].
  intros H%contents_url_inj. done.
Qed.


End Snapshots.

(** * The claims *)

Section Claims.

Context `{Eng : Engine} `{Rem : Remote}.
Variable config : Config.
Variable docs : Env → string → option (string * value).

Lemma get_op_getFile ent : get_op config ent = getFile config (entity_path ent).
Proof. by destruct ent. Qed.

Lemma add_op_shape ent add :
  add_op config ent = Some add →
  ∃ name msg, add = add_record config name (entity_path ent) msg.
Proof. destruct ent; intros [= <-]; by eexists _, _. Qed.

Lemma update_op_shape ent update :
  update_op config ent = Some update →
  ∃ name missing prefix,
    not_found ent = Some missing ∧
    update = update_record config name (entity_path ent) missing prefix.
Proof. destruct ent; intros [= <-]; by eexists _, _, _. Qed.

Lemma delete_op_shape ent delete :
  delete_op config ent = Some delete →
  ∃ name prefix, delete = delete_record config name (entity_path ent) prefix.
Proof. destruct ent; intros [= <-]; by eexists _, _. Qed.

Lemma save_op_shape ent save :
  save_op config ent = Some save →
  ∃ name prefix, save = save_record config name (entity_path ent) prefix.
Proof. destruct ent; intros [= <-]; by eexists _, _. Qed.

(** The fields of the input are fields of the new record. *)
Lemma field_new_record t data k v :
  is_record data = true → field data k = Some v →
  field (new_record t data) k = Some v.
Proof.
  intros (fs & -> & Hnd)%is_record_inv Hk. cbn [field new_record] in *.
  by rewrite obj_get_spread, Hk.
Qed.

(** A field of the merged record comes from the patch when the patch has
    it, and from the old record otherwise. *)
Lemma field_merge old patch k :
  is_record old = true → is_record patch = true →
  field (merge old patch) k =
  match field patch k with Some v => Some v | None => field old k end.
Proof.
  intros (fo & -> & Ho)%is_record_inv (fp & -> & Hp)%is_record_inv.
  cbn [field merge]. rewrite !obj_get_spread by done.
  by destruct (obj_get fp k), (obj_get fo k).
Qed.


(** C9.  In addProduct and addCategory the input is spread after the
    generated id: when the input record has an id field, the returned
    record, which is the last record of the sequence written, carries the
    caller's id whatever the clock reads. *)
Theorem add_keeps_caller_id ent add w l data v c :
  StoreLaws docs → truthy (token config) = true →
  add_op config ent = Some add →
  is_record data = true → field data "id" = Some v →
  read_view config docs (env w) (entity_path ent) = Ok (VArr l) →
  let x := new_record (reading (get_op config ent w).2) data in
  encode (VArr (l ++ [x])) = Ok c →
  (∀ t, field (new_record t data) "id" = Some v) ∧
  ∃ w' wr, add data w = (Ok x, w') ∧
    writes (log w') = writes (log w) ++ [wr] ∧
    req_url wr = contents_url config (entity_path ent) ∧
    req_content wr = Some c ∧
    last (l ++ [x]) = Some x ∧ field x "id" = Some v.
Proof.
  intros laws configured Hadd Hrec Hid Hview x Henc.
  split; [intros t; by apply field_new_record|].
  destruct (add_op_shape ent add Hadd) as (name & msg & ->).
  subst x. rewrite get_op_getFile in *.
  destruct (add_record_run config docs laws configured w name
              (entity_path ent) msg data l c Hview Henc) as (w' & Hrun & Hre).
  destruct (rewrote_writes config docs w w' _ c Hre) as (wr & Hw & Hu & Hc).
  exists w', wr. split_and!; [done..| |].
  - by rewrite last_snoc.
  - by apply field_new_record.
Qed.



(** C10.  For every path other than the five data paths, in particular
    every backups path, [getDefaultData] returns null, so [getFile] on a
    404 returns null, neither an error nor a default document; and
    [restoreData] on such a path goes on with the null snapshot: what it
    throws is the wrapped TypeError of reading [products] of null, not the
    error of the request, and it sends nothing but the GET. *)
Theorem unknown_path_reads_null path w r e' :
  truthy (token config) = true →
  path ∉ data_paths →
  fetch (get_request config path) (env w) = (Ok r, e') →
  ok r = false → status r = 404%Z →
  json r ≠ Ok VNull → json r ≠ Ok VUndef →
  let w' := sent w (get_request config path) e' in
  getDefaultData path = VNull ∧
  getFile config path w = (Ok VNull, w') ∧
  restoreData config path w
  = (Throw (JsError ("Failed to restore backup: " +:+
                     null_read_message VNull "products")), w').
Proof.
  intros configured Hpath Hf Hok Hst Hn1 Hn2 w'.
  assert (∃ m, get_prop (error_data r) "message" = Ok m) as [m Hm].
  { unfold error_data. destruct (json r) as [[]|]; simpl; eauto; congruence. }
  pose proof (getFile_404_default config configured w path r e' m
                Hf Hok Hst Hm) as Hget.
  rewrite (getDefaultData_unknown path Hpath) in Hget.
  split_and!; [by apply getDefaultData_unknown|done|].
  unfold restoreData, try_catch, bind. by rewrite Hget.
Qed.

Lemma id_of_field p : is_record p = true → id_of p = default VUndef (field p "id").
Proof. by intros (fs & -> & _)%is_record_inv. Qed.

(** A patch without an id leaves the id of the record alone. *)
Lemma id_of_merge old patch :
  is_record old = true → is_record patch = true → field patch "id" = None →
  id_of (merge old patch) = id_of old.
Proof.
  intros Ho Hp Hnone.
  pose proof (field_merge old patch "id" Ho Hp) as Hf. rewrite Hnone in Hf.
  rewrite (id_of_field old Ho). unfold merge in *. simpl in *. by rewrite Hf.
Qed.

(** C6, as the code has it.  Given empty remote storage, the read inside
    addProduct falls back to the five default products, so addProduct of
    the sample product returns a record with a numeric id and a subsequent
    getProducts returns six records: the five defaults followed by exactly
    that record. *)
Theorem addProduct_on_empty_store w :
  StoreLaws docs → truthy (token config) = true →
  (∀ path, docs (env w) (contents_url config path) = None) →
  let x := new_record (reading (getProducts config w).2) Sample.roti in
  round_trips (VArr (default_products ++ [x])) →
  ∃ w', addProduct config Sample.roti w = (Ok x, w') ∧
    (∃ t, field x "id" = Some (VNum t)) ∧
    (getProducts config w').1 = Ok (VArr (default_products ++ [x])) ∧
    length (default_products ++ [x]) = 6.
Proof.
  intros laws configured Hempty x (c & Henc & Hdec). subst x.
  assert (read_view config docs (env w) "data/products.json"
          = Ok (VArr default_products)) as Hview.
  { unfold read_view. by rewrite Hempty. }
  destruct (add_record_run config docs laws configured w "products"
              "data/products.json" "Add new product" Sample.roti
              default_products c Hview Henc) as (w' & Hrun & Hre).
  exists w'. split_and!; [done| | |done].
  - by eexists.
  - by eapply rewrote_read.
Qed.

(** C5, as the code has it.  No operation checks ids.  In a sequence
    whose ids are unique, delete keeps them unique; update keeps them
    unique when the patch has no id field; add, saveOrder and saveContact
    keep them unique when the id of the record they append is not yet in
    the sequence. *)
Theorem unique_ids_preserved :
  StoreLaws docs → truthy (token config) = true →
  (∀ ent add w l data,
     add_op config ent = Some add →
     read_view config docs (env w) (entity_path ent) = Ok (VArr l) →
     unique_ids l → is_record data = true →
     let x := new_record (reading (get_op config ent w).2) data in
     id_of x ∉ id_of <$> l →
     round_trips (VArr (l ++ [x])) →
     ∃ w', add data w = (Ok x, w') ∧
       (get_op config ent w').1 = Ok (VArr (l ++ [x])) ∧
       unique_ids (l ++ [x])) ∧
  (∀ ent update w l id patch i old,
     update_op config ent = Some update →
     read_view config docs (env w) (entity_path ent) = Ok (VArr l) →
     unique_ids l → is_sequence l = true → is_record patch = true →
     field patch "id" = None →
     l !! i = Some old → has_id id old = true →
     let l' := <[i := merge old patch]> l in
     round_trips (VArr l') →
     ∃ w', update id patch w = (Ok (merge old patch), w') ∧
       (get_op config ent w').1 = Ok (VArr l') ∧
       unique_ids l') ∧
  (∀ ent delete w l id,
     delete_op config ent = Some delete →
     read_view config docs (env w) (entity_path ent) = Ok (VArr l) →
     unique_ids l → is_sequence l = true →
     let l' := filter (λ p, has_id id p = false) l in
     round_trips (VArr l') →
     ∃ w', delete id w = (Ok (VBool true), w') ∧
       (get_op config ent w').1 = Ok (VArr l') ∧
       unique_ids l') ∧
  (∀ ent save w l data,
     save_op config ent = Some save →
     read_view config docs (env w) (entity_path ent) = Ok (VArr l) →
     unique_ids l → is_record data = true →
     id_of data ∉ id_of <$> l →
     round_trips (VArr (l ++ [data])) →
     ∃ w', save data w = (Ok data, w') ∧
       (get_op config ent w').1 = Ok (VArr (l ++ [data])) ∧
       unique_ids (l ++ [data])).
Proof.
  intros laws configured. split_and!.
  - intros ent add w l data Hop Hview Hu Hrec x Hfresh (c & Henc & Hdec).
    destruct (add_op_shape ent add Hop) as (name & msg & ->).
    subst x. rewrite get_op_getFile in *.
    destruct (add_record_run config docs laws configured w name
                (entity_path ent) msg data l c Hview Henc)
      as (w' & Hrun & Hre).
    exists w'. split_and!; [done| |by apply unique_ids_snoc].
    by eapply rewrote_read.
  - intros ent update w l id patch i old Hop Hview Hu Hseq Hpatch Hnone
      Hi Hold l' (c & Henc & Hdec). subst l'.
    destruct (update_op_shape ent update Hop)
      as (name & missing & prefix & _ & ->).
    destruct (update_record_run config docs laws configured w name
                (entity_path ent) missing prefix id patch l i old c)
      as (w' & Hrun & Hre); [done..|by eapply unique_ids_first|done|].
    exists w'. split_and!; [done| |].
    + rewrite get_op_getFile. by eapply rewrote_read.
    + eapply unique_ids_insert; [done| |done].
      apply id_of_merge; [|done..]. by eapply is_sequence_lookup.
  - intros ent delete w l id Hop Hview Hu Hseq l' (c & Henc & Hdec). subst l'.
    destruct (delete_op_shape ent delete Hop) as (name & prefix & ->).
    destruct (delete_record_run config docs laws configured w name
                (entity_path ent) prefix id l c) as (w' & Hrun & Hre);
      [done..|].
    exists w'. split_and!; [done| |by apply unique_ids_filter].
    rewrite get_op_getFile. by eapply rewrote_read.
  - intros ent save w l data Hop Hview Hu Hrec Hfresh (c & Henc & Hdec).
    destruct (save_op_shape ent save Hop) as (name & prefix & ->).
    destruct (save_record_run config docs laws configured w name
                (entity_path ent) prefix data l c) as (w' & Hrun & Hre);
      [done..|].
    exists w'. split_and!; [done| |by apply unique_ids_snoc].
    rewrite get_op_getFile. by eapply rewrote_read.
Qed.


End Claims.




(** ** The claims on the sample inputs *)

Section Witnesses.

#[local] Existing Instance RefEngine.engine.
#[local] Existing Instance MemStore.remote.

Import Sample.

Lemma round_trips_sample (v : value) :
  decode (content_of v) = Ok v → encode v = Ok (content_of v) →
  round_trips v.
Proof. intros H1 H2. by exists (content_of v). Defined.


Lemma add_keeps_caller_id_witness :
  let x := new_record (reading (get_op config Categories fresh).2) donat_7 in
  (∀ t, field (new_record t donat_7) "id" = Some (VNum 7)) ∧
  ∃ w' wr, addCategory config donat_7 fresh = (Ok x, w') ∧
    writes (log w') = writes (log fresh) ++ [wr] ∧
    req_url wr = contents_url config "data/categories.json" ∧
    req_content wr = Some (content_of (VArr (default_categories ++ [x]))) ∧
    last (default_categories ++ [x]) = Some x ∧
    field x "id" = Some (VNum 7).
Proof.
  apply (add_keeps_caller_id (Rem := MemStore.remote) config MemStore.docs
           Categories (addCategory config) fresh default_categories donat_7
           (VNum 7)).
  - apply MemStore_laws.
  - reflexivity.
  - reflexivity.
  - reflexivity.
  - reflexivity.
  - vm_compute. reflexivity.
  - vm_compute. reflexivity.
Defined.



Lemma unknown_path_reads_null_witness :
  let path := "backups/backup-1700000000000.json" in
  let w' := sent fresh (get_request config path)
              (MemStore.elapse (env fresh)) in
  getDefaultData path = VNull ∧
  getFile config path fresh = (Ok VNull, w') ∧
  restoreData config path fresh
  = (Throw (JsError ("Failed to restore backup: " +:+
                     null_read_message VNull "products")), w').
Proof.
  intros path.
  apply (unknown_path_reads_null (Rem := MemStore.remote) config path fresh
           (respond 404 "Not Found" (MemStore.failure "Not Found"))
           (MemStore.elapse (env fresh))).
  - reflexivity.
  - vm_compute. intros H. inversion H as [|? ? ? H1]; subst.
    repeat (inversion H1 as [|? ? ? H2]; subst; clear H1; rename H2 into H1).
  - reflexivity.
  - reflexivity.
  - reflexivity.
  - discriminate.
  - discriminate.
Defined.

(** Distinctness of a short list of concrete ids. *)
Ltac distinct_ids :=
  unfold unique_ids; cbn;
  repeat (apply NoDup_cons_2;
          [rewrite ?elem_of_cons, elem_of_nil; intuition discriminate|]);
  apply NoDup_nil_2.

Ltac fresh_id :=
  cbn; rewrite ?elem_of_cons, elem_of_nil; intuition discriminate.

Lemma addProduct_on_empty_store_witness :
  let x := new_record (reading (getProducts config fresh).2) roti in
  ∃ w', addProduct config roti fresh = (Ok x, w') ∧
    (∃ t, field x "id" = Some (VNum t)) ∧
    (getProducts config w').1 = Ok (VArr (default_products ++ [x])) ∧
    length (default_products ++ [x]) = 6.
Proof.
  apply (addProduct_on_empty_store (Rem := MemStore.remote) config
           MemStore.docs fresh).
  - apply MemStore_laws.
  - reflexivity.
  - intros path. reflexivity.
  - apply round_trips_sample; vm_compute; reflexivity.
Defined.

(** C6 as stated fails: on the empty store every GET answers 404, and the
    list read after addProduct does not consist of the new record alone. *)
Lemma empty_store_read_has_six :
  (∀ path, (fetch (get_request config path) (env fresh)).1
           = Ok (respond 404 "Not Found" (MemStore.failure "Not Found"))) ∧
  ¬ ∃ x t,
      (addProduct config roti fresh).1 = Ok x ∧
      field x "id" = Some (VNum t) ∧
      (getProducts config (after (addProduct config roti) fresh)).1
      = Ok (VArr [x]).
Proof.
  split; [done|]. intros (x & t & _ & _ & Hget).
  apply (f_equal (λ r, match r with Ok (VArr l) => length l | _ => 0 end))
    in Hget.
  vm_compute in Hget. discriminate Hget.
Qed.

Lemma unique_ids_preserved_witness :
  let kue := category 2 "Kue" "Aneka kue manis dan lezat" in
  (let x := new_record (reading (get_op config Categories fresh).2) donat in
   ∃ w', addCategory config donat fresh = (Ok x, w') ∧
     (get_op config Categories w').1 = Ok (VArr (default_categories ++ [x])) ∧
     unique_ids (default_categories ++ [x])) ∧
  (let l' := <[1 := merge kue renamed]> default_categories in
   ∃ w', updateCategory config (VNum 2) renamed fresh
         = (Ok (merge kue renamed), w') ∧
     (get_op config Categories w').1 = Ok (VArr l') ∧ unique_ids l') ∧
  (let l' := filter (λ p, has_id (VNum 2) p = false) default_categories in
   ∃ w', deleteCategory config (VNum 2) fresh = (Ok (VBool true), w') ∧
     (get_op config Categories w').1 = Ok (VArr l') ∧ unique_ids l') ∧
  (∃ w', saveOrder config order fresh = (Ok order, w') ∧
     (get_op config Orders w').1 = Ok (VArr ([] ++ [order])) ∧
     unique_ids ([] ++ [order])).
Proof.
  intros kue.
  destruct (unique_ids_preserved (Rem := MemStore.remote) config
              MemStore.docs) as (Hadd & Hupdate & Hdelete & Hsave).
  - apply MemStore_laws.
  - reflexivity.
  - split_and!.
    + apply (Hadd Categories (addCategory config) fresh default_categories
               donat).
      * reflexivity.
      * vm_compute. reflexivity.
      * distinct_ids.
      * reflexivity.
      * fresh_id.
      * apply round_trips_sample; vm_compute; reflexivity.
    + apply (Hupdate Categories (updateCategory config) fresh
               default_categories (VNum 2) renamed 1 kue).
      * reflexivity.
      * vm_compute. reflexivity.
      * distinct_ids.
      * reflexivity.
      * reflexivity.
      * reflexivity.
      * reflexivity.
      * reflexivity.
      * apply round_trips_sample; vm_compute; reflexivity.
    + apply (Hdelete Categories (deleteCategory config) fresh
               default_categories (VNum 2)).
      * reflexivity.
      * vm_compute. reflexivity.
      * distinct_ids.
      * reflexivity.
      * apply round_trips_sample; vm_compute; reflexivity.
    + apply (Hsave Orders (saveOrder config) fresh [] order).
      * reflexivity.
      * vm_compute. reflexivity.
      * distinct_ids.
      * reflexivity.
      * fresh_id.
      * apply round_trips_sample; vm_compute; reflexivity.
Defined.

(** C5 as stated fails: the orders start out with unique ids, and saving
    the same order twice writes back a sequence in which its id occurs
    twice. *)
Lemma saveOrder_repeats_id :
  let w1 := after (saveOrder config order) fresh in
  let w2 := after (saveOrder config order) w1 in
  (getOrders config w1).1 = Ok (VArr [order]) ∧ unique_ids [order] ∧
  (saveOrder config order w1).1 = Ok order ∧
  (getOrders config w2).1 = Ok (VArr [order; order]) ∧
  ¬ unique_ids [order; order].
Proof.
  split_and!; [by vm_compute|distinct_ids|by vm_compute..|].
  unfold unique_ids. cbn. intros H%NoDup_cons_1_1. apply H. constructor.
Qed.


End Witnesses.

(** ** Where the code departs from the specification *)

(** C1.  A read that fails with status 500 is not a 404, yet [saveFile]
    does not let the error through: the test on the message finds the
    digits 404 in the text the server sent, and a POST follows the GET. *)
Theorem saveFile_posts_after_non_404 :
  let w := Sample.scripted [Ok Sample.backend_error; Ok Sample.created] in
  let run := saveFile (Eng := RefEngine.engine) (Rem := Scripted.remote)
               Sample.config "data/products.json" (VArr []) "Add new product"
               w in
  ok Sample.backend_error = false ∧ status Sample.backend_error = 500%Z ∧
  run.1 = json Sample.created ∧
  log run.2 =
    [get_request Sample.config "data/products.json";
     write_request Sample.config "POST" "data/products.json"
       "Add new product" "W10=" None].
Proof. vm_compute. by split_and!. Qed.

(** C2.  A read that fails with status 500 is not a 404, yet [getFile]
    swallows the failure and returns the default products: the test on
    the message finds the digits 404 in the text the server sent. *)
Theorem getFile_swallows_non_404 :
  let w := Sample.scripted [Ok Sample.backend_error] in
  ok Sample.backend_error = false ∧ status Sample.backend_error = 500%Z ∧
  (getFile (Eng := RefEngine.engine) (Rem := Scripted.remote)
     Sample.config "data/products.json" w).1
  = Ok (VArr default_products).
Proof. vm_compute. by split_and!. Qed.

(** The update sits inside the same [try]: when the read succeeds and the
    PUT is refused with a 404, the catch block sends a POST after it. *)
Lemma saveFile_posts_after_refused_put :
  let w := Sample.scripted
             [Ok Sample.found; Ok Sample.refused; Ok Sample.created] in
  let run := saveFile (Eng := RefEngine.engine) (Rem := Scripted.remote)
               Sample.config "data/products.json" (VArr []) "Add new product"
               w in
  run.1 = json Sample.created ∧
  req_method <$> log run.2 = ["GET"; "PUT"; "POST"].
Proof. vm_compute. by split. Qed.

(** * More of the code *)

(** ** What the methods send, against any remote side *)

Section Sends.

Context `{Eng : Engine} `{Rem : Remote} `{Lib : Library}.
Variable config : Config.

Lemma sends_ret {A} (a : A) P : sends (ret a) P.
Proof. intros w. exists []. by rewrite app_nil_r. Qed.

Lemma sends_throw {A} e P : sends (throw (A := A) e) P.
Proof. intros w. exists []. by rewrite app_nil_r. Qed.

Lemma sends_lift {A} (r : result A) P : sends (lift r) P.
Proof. intros w. exists []. by rewrite app_nil_r. Qed.

Lemma sends_now P : sends now P.
Proof.
  intros w. unfold now. destruct (Date_now (env w)). exists [].
  by rewrite app_nil_r.
Qed.

Lemma sends_bind {A B} (m : M A) (k : A → M B) P :
  sends m P → (∀ a, sends (k a) P) → sends (bind m k) P.
Proof.
  intros Hm Hk w. unfold bind. destruct (Hm w) as (rs & Hlog & Hrs).
  destruct (m w) as [[a|e] w1]; cbn [snd] in *.
  - destruct (Hk a w1) as (rs' & Hlog' & Hrs').
    exists (rs ++ rs'). rewrite Hlog', Hlog, app_assoc. split; [done|].
    by apply Forall_app.
  - by exists rs.
Qed.

Lemma sends_try_catch {A} (m : M A) (h : exn → M A) P :
  sends m P → (∀ e, sends (h e) P) → sends (try_catch m h) P.
Proof.
  intros Hm Hh w. unfold try_catch. destruct (Hm w) as (rs & Hlog & Hrs).
  destruct (m w) as [[a|e] w1]; cbn [snd] in *.
  - by exists rs.
  - destruct (Hh e w1) as (rs' & Hlog' & Hrs').
    exists (rs ++ rs'). rewrite Hlog', Hlog, app_assoc. split; [done|].
    by apply Forall_app.
Qed.

Lemma sends_weaken {A} (m : M A) (P Q : Request → Prop) :
  (∀ rq, P rq → Q rq) → sends m P → sends m Q.
Proof.
  intros HPQ Hm w. destruct (Hm w) as (rs & Hlog & Hrs). exists rs.
  split; [done|]. eapply Forall_impl; [exact Hrs|]. exact HPQ.
Qed.

(** A method that sends only requests that do not write leaves the
    writes of the log as they were. *)
Lemma sends_no_write {A} (m : M A) P w :
  sends m P → (∀ rq, P rq → is_write rq = false) →
  writes (log (m w).2) = writes (log w).
Proof.
  intros Hm HP. destruct (Hm w) as (rs & -> & Hrs).
  unfold writes. rewrite List.filter_app.
  assert (List.filter is_write rs = []) as ->; [|apply app_nil_r].
  induction Hrs as [|rq rs Hrq _ IH]; [done|]. simpl.
  by rewrite (HP rq Hrq).
Qed.

Lemma sends_makeRequest path method data :
  sends (makeRequest config path method data)
    (λ rq, goes_to config path rq ∧ req_method rq = method).
Proof.
  unfold makeRequest. destruct (negb (truthy (token config))).
  - apply sends_throw.
  - apply sends_bind.
    + intros w. unfold do_fetch.
      destruct (fetch _ (env w)) as [r e']. eexists [_].
      split; [reflexivity|]. by repeat constructor.
    + intros r. destruct (negb (ok r)); [|apply sends_lift].
      apply sends_bind; [apply sends_lift|]. intros m. apply sends_throw.
Qed.

Lemma sends_makeRequest_get path :
  sends (makeRequest config path "GET" VNull) (reads_at config path).
Proof.
  unfold makeRequest. destruct (negb (truthy (token config))).
  - apply sends_throw.
  - apply sends_bind.
    + intros w. unfold do_fetch.
      destruct (fetch _ (env w)) as [r e']. eexists [_].
      split; [reflexivity|]. by repeat constructor.
    + intros r. destruct (negb (ok r)); [|apply sends_lift].
      apply sends_bind; [apply sends_lift|]. intros m. apply sends_throw.
Qed.

Lemma sends_getFile path : sends (getFile config path) (reads_at config path).
Proof.
  unfold getFile. apply sends_try_catch.
  - apply sends_bind; [apply sends_makeRequest_get|]. intros j.
    apply sends_bind; [apply sends_lift|]. intros c.
    apply sends_bind; [apply sends_lift|]. intros content. apply sends_lift.
  - intros e. destruct (includes "404" (message e));
      [apply sends_ret|apply sends_throw].
Qed.

Lemma reads_at_goes_to path rq : reads_at config path rq → goes_to config path rq.
Proof. by intros ->. Qed.

Lemma sends_saveFile path data msg :
  sends (saveFile config path data msg) (goes_to config path).
Proof.
  unfold saveFile. apply sends_bind; [apply sends_lift|]. intros c.
  apply sends_try_catch.
  - apply sends_bind.
    { eapply sends_weaken; [|apply sends_makeRequest]. by intros rq [? _]. }
    intros j. apply sends_bind; [apply sends_lift|]. intros sha.
    eapply sends_weaken; [|apply sends_makeRequest]. by intros rq [? _].
  - intros e. destruct (includes "404" (message e)); [|apply sends_throw].
    eapply sends_weaken; [|apply sends_makeRequest]. by intros rq [? _].
Qed.

Lemma sends_getFile_goes path : sends (getFile config path) (goes_to config path).
Proof.
  eapply sends_weaken; [|apply sends_getFile]. apply reads_at_goes_to.
Qed.

Lemma sends_add_record name path msg data :
  sends (add_record config name path msg data) (goes_to config path).
Proof.
  unfold add_record. apply sends_bind; [apply sends_getFile_goes|]. intros xs.
  apply sends_bind; [apply sends_now|]. intros t.
  apply sends_bind; [apply sends_lift|]. intros xs'.
  apply sends_bind; [apply sends_saveFile|]. intros _. apply sends_ret.
Qed.

Lemma sends_update_record name path missing prefix id patch :
  sends (update_record config name path missing prefix id patch)
    (goes_to config path).
Proof.
  unfold update_record. apply sends_bind; [apply sends_getFile_goes|].
  intros xs. apply sends_bind; [apply sends_lift|]. intros index.
  destruct (index =? -1)%Z; [apply sends_throw|].
  apply sends_bind; [apply sends_saveFile|]. intros _. apply sends_ret.
Qed.

Lemma sends_delete_record name path prefix id :
  sends (delete_record config name path prefix id) (goes_to config path).
Proof.
  unfold delete_record. apply sends_bind; [apply sends_getFile_goes|].
  intros xs. apply sends_bind; [apply sends_lift|]. intros filtered.
  apply sends_bind; [apply sends_saveFile|]. intros _. apply sends_ret.
Qed.

Lemma sends_save_record name path prefix data :
  sends (save_record config name path prefix data) (goes_to config path).
Proof.
  unfold save_record. apply sends_bind; [apply sends_getFile_goes|].
  intros xs. apply sends_bind; [apply sends_lift|]. intros xs'.
  apply sends_bind; [apply sends_lift|]. intros id.
  apply sends_bind; [apply sends_saveFile|]. intros _. apply sends_ret.
Qed.

Lemma sends_updateOrderStatus orderId newStatus :
  sends (updateOrderStatus config orderId newStatus)
    (goes_to config "data/orders.json").
Proof.
  unfold updateOrderStatus. apply sends_bind; [apply sends_getFile_goes|].
  intros xs. apply sends_bind; [apply sends_lift|]. intros index.
  destruct (index =? -1)%Z; [apply sends_throw|].
  apply sends_bind; [apply sends_lift|]. intros o.
  apply sends_bind; [apply sends_saveFile|]. intros _. apply sends_ret.
Qed.

Lemma sends_updateWebsiteConfig configData :
  sends (updateWebsiteConfig config configData)
    (goes_to config "data/website.json").
Proof.
  unfold updateWebsiteConfig. apply sends_bind; [apply sends_saveFile|].
  intros _. apply sends_ret.
Qed.

(** X1.  Each operation on an entity, and the update of the settings,
    sends its requests to the document of that entity only, each with the
    headers of the class, whatever the remote side answers. *)
Theorem operations_keep_to_their_document :
  (∀ d, sends (addProduct config d) (goes_to config "data/products.json")) ∧
  (∀ id d, sends (updateProduct config id d)
             (goes_to config "data/products.json")) ∧
  (∀ id, sends (deleteProduct config id)
           (goes_to config "data/products.json")) ∧
  (∀ d, sends (addCategory config d)
          (goes_to config "data/categories.json")) ∧
  (∀ id d, sends (updateCategory config id d)
             (goes_to config "data/categories.json")) ∧
  (∀ id, sends (deleteCategory config id)
           (goes_to config "data/categories.json")) ∧
  (∀ d, sends (saveOrder config d) (goes_to config "data/orders.json")) ∧
  (∀ id st, sends (updateOrderStatus config id st)
              (goes_to config "data/orders.json")) ∧
  (∀ d, sends (saveContact config d) (goes_to config "data/contacts.json")) ∧
  (∀ id, sends (deleteContact config id)
           (goes_to config "data/contacts.json")) ∧
  (∀ d, sends (updateWebsiteConfig config d)
          (goes_to config "data/website.json")).
Proof.
  split_and!; intros.
  - apply (sends_add_record "products").
  - apply (sends_update_record "products").
  - apply (sends_delete_record "products").
  - apply (sends_add_record "categories").
  - apply (sends_update_record "categories").
  - apply (sends_delete_record "categories").
  - apply (sends_save_record "orders").
  - apply sends_updateOrderStatus.
  - apply (sends_save_record "contacts").
  - apply (sends_delete_record "contacts").
  - apply sends_updateWebsiteConfig.
Qed.

Lemma sends_get_op ent :
  sends (get_op config ent) (reads_at config (entity_path ent)).
Proof. rewrite get_op_getFile. apply sends_getFile. Qed.

Lemma sends_exportData :
  sends (exportData config) (λ rq, ∃ path, reads_at config path rq).
Proof.
  assert (∀ path, sends (getFile config path)
                    (λ rq, ∃ path, reads_at config path rq)) as Hget.
  { intros path. eapply sends_weaken; [|apply sends_getFile]. by eexists. }
  unfold exportData. apply sends_try_catch; [|intros e; apply sends_throw].
  apply sends_bind; [apply sends_now|]. intros t.
  repeat (apply sends_bind; [apply Hget|]; intros ?).
  apply sends_ret.
Qed.

Lemma sends_testConnection :
  sends (testConnection config) (reads_at config EmptyString).
Proof.
  unfold testConnection. apply sends_try_catch; [|intros e; apply sends_ret].
  apply sends_bind; [apply sends_makeRequest_get|]. intros j.
  apply sends_bind; [apply sends_lift|]. intros n. apply sends_ret.
Qed.

Lemma sends_getRepoInfo :
  sends (getRepoInfo config) (reads_at config EmptyString).
Proof.
  unfold getRepoInfo. apply sends_try_catch; [|intros e; apply sends_throw].
  apply sends_bind; [apply sends_makeRequest_get|]. intros j.
  repeat (apply sends_bind; [apply sends_lift|]; intros ?).
  apply sends_ret.
Qed.

Lemma sends_getBackups :
  sends (getBackups config) (reads_at config "backups").
Proof.
  unfold getBackups. apply sends_try_catch.
  - apply sends_bind; [apply sends_makeRequest_get|]. intros j.
    destruct j; try apply sends_throw.
    apply sends_bind; [apply sends_lift|]. intros kept.
    apply sends_bind; [apply sends_lift|]. intros entries. apply sends_ret.
  - intros e. destruct (includes "404" (message e));
      [apply sends_ret|apply sends_throw].
Qed.

(** X2.  The methods that read send nothing but GET requests without a
    body, each to the path the method names, against any remote side:
    reading a document, exporting, testing the connection, asking for the
    repository or for the backups never writes. *)
Theorem reads_only_get :
  (∀ path, sends (getFile config path) (reads_at config path)) ∧
  (∀ ent, sends (get_op config ent) (reads_at config (entity_path ent))) ∧
  sends (getWebsiteConfig config) (reads_at config "data/website.json") ∧
  sends (exportData config) (λ rq, ∃ path, reads_at config path rq) ∧
  sends (testConnection config) (reads_at config EmptyString) ∧
  sends (getRepoInfo config) (reads_at config EmptyString) ∧
  sends (getBackups config) (reads_at config "backups") ∧
  (∀ path, req_method (get_request config path) = "GET" ∧
           req_body (get_request config path) = None ∧
           is_write (get_request config path) = false).
Proof.
  split_and!.
  - apply sends_getFile.
  - apply sends_get_op.
  - apply sends_getFile.
  - apply sends_exportData.
  - apply sends_testConnection.
  - apply sends_getRepoInfo.
  - apply sends_getBackups.
  - done.
Qed.



Lemma no_token_makeRequest path method data w :
  truthy (token config) = false →
  makeRequest config path method data w
  = (Throw (JsError "GitHub token not configured"), w).
Proof. intros Hno. unfold makeRequest. by rewrite Hno. Qed.

(** X4.  Without a token nothing is sent: [makeRequest], and with it
    [getFile] and [saveFile], fail with the configuration error and leave
    the world as it was; [testConnection] reports the failure. *)
Theorem without_token_nothing_is_sent path method data msg c w :
  truthy (token config) = false → encode data = Ok c →
  makeRequest config path method data w
  = (Throw (JsError "GitHub token not configured"), w) ∧
  getFile config path w = (Throw (JsError "GitHub token not configured"), w) ∧
  saveFile config path data msg w
  = (Throw (JsError "GitHub token not configured"), w) ∧
  testConnection config w
  = (Ok (VObj [("success", VBool false);
               ("message", VStr "GitHub token not configured")]), w).
Proof.
  intros Hno Henc.
  assert (∀ p m d, makeRequest config p m d w
                   = (Throw (JsError "GitHub token not configured"), w))
    as Hreq.
  { intros p m d. unfold makeRequest. by rewrite Hno. }
  split_and!.
  - apply Hreq.
  - unfold getFile, try_catch, bind. by rewrite Hreq.
  - unfold saveFile, bind at 1. unfold encode in Henc. unfold lift at 1.
    rewrite Henc. unfold try_catch, bind. by rewrite Hreq.
  - unfold testConnection, try_catch, bind. by rewrite Hreq.
Qed.

(** X5.  [testConnection] never throws, whatever the remote side does: it
    returns a record whose [success] is true with the fixed message, or
    false with the message of the failure. *)
Theorem testConnection_never_throws w :
  ∃ v w', testConnection config w = (Ok v, w') ∧
    ((∃ repo, v = VObj [("success", VBool true);
                        ("message", VStr "Connection successful");
                        ("repo", repo)]) ∨
     (∃ m, v = VObj [("success", VBool false); ("message", VStr m)])).
Proof.
  unfold testConnection, try_catch, bind.
  destruct (makeRequest config EmptyString "GET" VNull w) as [[j|e] w1].
  - unfold lift. destruct (get_prop j "full_name") as [repo|e]; unfold ret.
    + eexists _, _. split; [done|]. left. by eexists.
    + eexists _, _. split; [done|]. right. by eexists.
  - unfold ret. eexists _, _. split; [done|]. right. by eexists.
Qed.

Lemma labelled_failure {A} (m : M A) (prefix : string) w :
  match (try_catch m (λ e, throw (JsError (prefix +:+ message e))) w).1 with
  | Ok _ => True
  | Throw e => ∃ cause, message e = prefix +:+ cause
  end.
Proof.
  unfold try_catch. destruct (m w) as [[a|e] w1]; cbn; [done|]. by eexists.
Qed.

(** X6.  Whatever fails inside them, the bulk helpers throw an error
    whose message is their own label followed by the message of the
    cause: no failure of exporting, importing, restoring, backing up or
    asking for the repository leaves them under another message. *)
Theorem failures_are_labelled w :
  (match (exportData config w).1 with
   | Ok _ => True
   | Throw e => ∃ cause, message e = "Failed to export data: " +:+ cause
   end) ∧
  (∀ d, match (importData config d w).1 with
        | Ok _ => True
        | Throw e => ∃ cause, message e = "Failed to import data: " +:+ cause
        end) ∧
  (∀ path, match (restoreData config path w).1 with
           | Ok _ => True
           | Throw e =>
               ∃ cause, message e = "Failed to restore backup: " +:+ cause
           end) ∧
  (match (backupData config w).1 with
   | Ok _ => True
   | Throw e => ∃ cause, message e = "Failed to create backup: " +:+ cause
   end) ∧
  (match (getRepoInfo config w).1 with
   | Ok _ => True
   | Throw e =>
       ∃ cause, message e = "Failed to get repository info: " +:+ cause
   end).
Proof. split_and!; intros; apply labelled_failure. Qed.

End Sends.

(** ** Records stay records *)

Lemma obj_replace_keys fs k v : (obj_replace fs k v).*1 = fs.*1.
Proof.
  induction fs as [|[k' v'] fs IH]; [done|]. cbn [obj_replace].
  destruct (String.eqb k' k) eqn:E; rewrite !fmap_cons; cbn [fst].
  - by apply String.eqb_eq in E as ->.
  - by rewrite IH.
Qed.

Lemma obj_insert_index_keys fs n k v :
  (obj_insert_index fs n k v).*1 ≡ₚ k :: fs.*1.
Proof.
  induction fs as [|[k' v'] fs IH]; [done|]. cbn [obj_insert_index].
  destruct (array_index k') as [m|]; [destruct (m <? n)%N|];
    rewrite !fmap_cons; cbn [fst]; try done.
  rewrite IH. apply Permutation_swap.
Qed.

Lemma obj_get_None_inv fs k : obj_get fs k = None → k ∉ fs.*1.
Proof.
  induction fs as [|[k' v'] fs IH]; simpl; [intros _; apply not_elem_of_nil|].
  destruct (String.eqb k' k) eqn:E; [done|]. intros Hn.
  apply not_elem_of_cons. split; [|by apply IH].
  apply String.eqb_neq in E. congruence.
Qed.

(** Assigning a property keeps every key of the object single. *)
Lemma obj_set_keys fs k v : NoDup fs.*1 → NoDup (obj_set fs k v).*1.
Proof.
  intros Hnd. unfold obj_set. destruct (obj_get fs k) as [x|] eqn:Hk.
  - by rewrite obj_replace_keys.
  - apply obj_get_None_inv in Hk. destruct (array_index k) as [n|].
    + rewrite obj_insert_index_keys. by apply NoDup_cons.
    + rewrite fmap_app. apply NoDup_app. split_and!; [done| |apply NoDup_singleton].
      intros y Hy Hin. apply list_elem_of_singleton in Hin as ->. done.
Qed.

Lemma spread_keys target src : NoDup target.*1 → NoDup (spread target src).*1.
Proof.
  unfold spread. generalize (own_props src). intros props. revert target.
  induction props as [|[k v] props IH]; intros target Hnd; simpl; [done|].
  apply IH. by apply obj_set_keys.
Qed.

Lemma is_record_new_record t data : is_record (new_record t data) = true.
Proof.
  apply bool_decide_eq_true, spread_keys. simpl.
  apply NoDup_singleton.
Qed.

Lemma is_record_merge old patch : is_record (merge old patch) = true.
Proof.
  apply bool_decide_eq_true, spread_keys, spread_keys. apply NoDup_nil_2.
Qed.

Lemma is_sequence_app l k :
  is_sequence (l ++ k) = is_sequence l && is_sequence k.
Proof. unfold is_sequence. apply forallb_app. Qed.

Lemma is_sequence_filter (P : value → Prop) `{∀ p, Decision (P p)} l :
  is_sequence l = true → is_sequence (filter P l) = true.
Proof.
  unfold is_sequence. rewrite !forallb_forall. intros Hl p Hp.
  apply Hl. apply list_elem_of_In. apply list_elem_of_In in Hp.
  by apply list_elem_of_filter in Hp as [_ ?].
Qed.


(** ** The remaining methods against a store that keeps its contract *)

Section RestRuns.

Context `{Eng : Engine} `{Rem : Remote} `{Lib : Library}.
Variable config : Config.
Variable docs : Env → string → option (string * value).
Hypothesis laws : StoreLaws docs.
Hypothesis configured : truthy (token config) = true.

Lemma rewrote_view w w' path c v :
  rewrote config docs w w' path c → decode c = Ok v →
  read_view config docs (env w') path = Ok v.
Proof. intros (s' & wr & Hnew & _) Hdec. by eapply read_view_stored. Qed.

Lemma rewrote_elsewhere w w' path c other :
  rewrote config docs w w' path c → other ≠ path →
  read_view config docs (env w') other = read_view config docs (env w) other.
Proof.
  intros (s' & wr & _ & Hsame & _) Hne. unfold read_view.
  rewrite Hsame; [done|]. intros H%contents_url_inj. done.
Qed.





Lemma initializeData_run w v :
  read_view config docs (env w) "data/products.json" = Ok v →
  ∃ w', initializeData config w
        = ((Ok VUndef, w'), ["Data already initialized"]) ∧
    quiet docs w w'.
Proof using laws configured.
  intros Hview. unfold initializeData, getProducts.
  destruct (getFile_run config docs laws configured w "data/products.json" v
              Hview) as (w' & -> & Q).
  by exists w'.
Qed.

Lemma get_prop_other b k x k' :
  get_prop b k = Ok x → ∃ y, get_prop b k' = Ok y.
Proof.
  destruct b; simpl; intros H; try discriminate H; eauto;
    repeat case_match; eauto.
Qed.

(** [restoreData] saves the five fields of whatever the backup holds. *)
Lemma restoreData_run w path b (x : string → value) (c : string → string) :
  read_view config docs (env w) path = Ok b →
  (∀ f p, (f, p) ∈ live_documents →
     get_prop b f = Ok (x p) ∧ encode (x p) = Ok (c p)) →
  ∃ ts w0 w1 w2 w3 w4 w5,
    get_prop b "timestamp" = Ok ts ∧
    restoreData config path w
    = (Ok (VObj [("success", VBool true); ("timestamp", ts)]), w5) ∧
    quiet docs w w0 ∧
    saved config docs w0 w1 "data/products.json" (c "data/products.json") ∧
    saved config docs w1 w2 "data/categories.json"
      (c "data/categories.json") ∧
    saved config docs w2 w3 "data/orders.json" (c "data/orders.json") ∧
    saved config docs w3 w4 "data/contacts.json" (c "data/contacts.json") ∧
    saved config docs w4 w5 "data/website.json" (c "data/website.json").
Proof using laws configured.
  intros Hview Hall.
  destruct (Hall "products" "data/products.json") as (Gp & Ep);
    [unfold live_documents; repeat constructor|].
  destruct (Hall "categories" "data/categories.json") as (Gc & Ec);
    [unfold live_documents; repeat constructor|].
  destruct (Hall "orders" "data/orders.json") as (Go & Eo);
    [unfold live_documents; repeat constructor|].
  destruct (Hall "contacts" "data/contacts.json") as (Gk & Ek);
    [unfold live_documents; repeat constructor|].
  destruct (Hall "website" "data/website.json") as (Gs & Es);
    [unfold live_documents; repeat constructor|].
  destruct (get_prop_other b "products" _ "timestamp" Gp) as (ts & Gt).
  destruct (getFile_run config docs laws configured w path b Hview)
    as (w0 & H0 & Q0).
  destruct (saveFile_run config docs laws configured w0 "data/products.json"
              _ "Restore products from backup" _ Ep) as (j1 & w1 & H1 & S1).
  destruct (saveFile_run config docs laws configured w1
              "data/categories.json" _ "Restore categories from backup" _ Ec)
    as (j2 & w2 & H2 & S2).
  destruct (saveFile_run config docs laws configured w2 "data/orders.json"
              _ "Restore orders from backup" _ Eo) as (j3 & w3 & H3 & S3).
  destruct (saveFile_run config docs laws configured w3 "data/contacts.json"
              _ "Restore contacts from backup" _ Ek) as (j4 & w4 & H4 & S4).
  destruct (saveFile_run config docs laws configured w4 "data/website.json"
              _ "Restore website config from backup" _ Es)
    as (j5 & w5 & H5 & S5).
  exists ts, w0, w1, w2, w3, w4, w5. split_and!; [done| |done..].
  unfold restoreData. apply try_catch_ok.
  rewrite (bind_eq _ _ _ _ _ H0).
  rewrite (bind_eq _ _ w0 _ w0 (f_equal (λ r, (r, w0)) Gp)).
  rewrite (bind_eq _ _ _ _ _ H1).
  rewrite (bind_eq _ _ w1 _ w1 (f_equal (λ r, (r, w1)) Gc)).
  rewrite (bind_eq _ _ _ _ _ H2).
  rewrite (bind_eq _ _ w2 _ w2 (f_equal (λ r, (r, w2)) Go)).
  rewrite (bind_eq _ _ _ _ _ H3).
  rewrite (bind_eq _ _ w3 _ w3 (f_equal (λ r, (r, w3)) Gk)).
  rewrite (bind_eq _ _ _ _ _ H4).
  rewrite (bind_eq _ _ w4 _ w4 (f_equal (λ r, (r, w4)) Gs)).
  rewrite (bind_eq _ _ _ _ _ H5).
  rewrite (bind_eq _ _ w5 _ w5 (f_equal (λ r, (r, w5)) Gt)).
  reflexivity.
Qed.

(** [backupData] reads the five documents and saves the snapshot under a
    path named after a reading of the clock. *)
Lemma backupData_run w products categories orders contacts website cb :
  read_view config docs (env w) "data/products.json" = Ok products →
  read_view config docs (env w) "data/categories.json" = Ok categories →
  read_view config docs (env w) "data/orders.json" = Ok orders →
  read_view config docs (env w) "data/contacts.json" = Ok contacts →
  read_view config docs (env w) "data/website.json" = Ok website →
  encode (snapshot (reading w) products categories orders contacts website)
  = Ok cb →
  ∃ t1 w0 w',
    backupData config w
    = (Ok (VObj [("success", VBool true); ("path", VStr (backup_path t1));
                 ("timestamp", VStr (toISOString (reading w)))]), w') ∧
    quiet docs w w0 ∧
    saved config docs w0 w' (backup_path t1) cb.
Proof using laws configured.
  intros Hp Hc Ho Hk Hs Henc.
  destruct (now_run docs laws w) as (wa & Hn & Qa).
  destruct (getFile_run config docs laws configured wa "data/products.json"
              products) as (w1 & H1 & Q1);
    [by rewrite (read_view_quiet config docs w wa)|].
  pose proof (quiet_trans docs _ _ _ Qa Q1) as Q01.
  destruct (getFile_run config docs laws configured w1
              "data/categories.json" categories) as (w2 & H2 & Q2);
    [by rewrite (read_view_quiet config docs w w1)|].
  pose proof (quiet_trans docs _ _ _ Q01 Q2) as Q02.
  destruct (getFile_run config docs laws configured w2 "data/orders.json"
              orders) as (w3 & H3 & Q3);
    [by rewrite (read_view_quiet config docs w w2)|].
  pose proof (quiet_trans docs _ _ _ Q02 Q3) as Q03.
  destruct (getFile_run config docs laws configured w3 "data/contacts.json"
              contacts) as (w4 & H4 & Q4);
    [by rewrite (read_view_quiet config docs w w3)|].
  pose proof (quiet_trans docs _ _ _ Q03 Q4) as Q04.
  destruct (getFile_run config docs laws configured w4 "data/website.json"
              website) as (w5 & H5 & Q5);
    [by rewrite (read_view_quiet config docs w w4)|].
  pose proof (quiet_trans docs _ _ _ Q04 Q5) as Q05.
  destruct (now_run docs laws w5) as (w6 & Hn6 & Q6).
  pose proof (quiet_trans docs _ _ _ Q05 Q6) as Q06.
  destruct (now_run docs laws w6) as (w7 & Hn7 & Q7).
  pose proof (quiet_trans docs _ _ _ Q06 Q7) as Q07.
  destruct (saveFile_run config docs laws configured w7
              (backup_path (reading w5))
              (snapshot (reading w) products categories orders contacts
                 website)
              ("Create backup " +:+ to_string (VNum (reading w6))) cb Henc)
    as (j & w' & Hsv & Sv).
  exists (reading w5), w7, w'. split_and!; [|done..].
  unfold backupData. apply try_catch_ok.
  rewrite (bind_eq _ _ _ _ _ Hn).
  unfold getProducts, getCategories, getOrders, getContacts, getWebsiteConfig.
  rewrite (bind_eq _ _ _ _ _ H1), (bind_eq _ _ _ _ _ H2),
    (bind_eq _ _ _ _ _ H3), (bind_eq _ _ _ _ _ H4), (bind_eq _ _ _ _ _ H5).
  cbv zeta.
  rewrite (bind_eq _ _ _ _ _ Hn6), (bind_eq _ _ _ _ _ Hn7).
  fold (snapshot (reading w) products categories orders contacts website).
  rewrite (bind_eq _ _ _ _ _ Hsv).
  reflexivity.
Qed.

End RestRuns.

(** ** Properties of the remaining methods and of compositions *)

Section Extras.

Context `{Eng : Engine} `{Rem : Remote} `{Lib : Library}.
Variable config : Config.
Variable docs : Env → string → option (string * value).



(** X9.  Against a store that keeps its contract, [initializeData] never
    initializes: whenever the products can be read, which includes the
    case that no document exists since the read then falls back to the
    defaults, it prints that the data is already initialized, writes
    nothing and changes no document. *)
Theorem initializeData_writes_nothing w v :
  StoreLaws docs → truthy (token config) = true →
  read_view config docs (env w) "data/products.json" = Ok v →
  ∃ w', initializeData config w
        = ((Ok VUndef, w'), ["Data already initialized"]) ∧
    writes (log w') = writes (log w) ∧
    ∀ u, docs (env w') u = docs (env w) u.
Proof.
  intros laws configured Hview.
  destruct (initializeData_run config docs laws configured w v Hview)
    as (w' & Hrun & Hsame & Hw).
  by exists w'.
Qed.


(** X11.  Adding a record without an id of its own, then deleting the id
    it was given, brings the sequence back: when no record had that id
    before, a read after the two operations returns the original
    sequence. *)
Theorem add_then_delete ent add delete w l data :
  StoreLaws docs → truthy (token config) = true →
  add_op config ent = Some add → delete_op config ent = Some delete →
  is_sequence l = true → is_record data = true → field data "id" = None →
  read_view config docs (env w) (entity_path ent) = Ok (VArr l) →
  let t := reading (get_op config ent w).2 in
  let x := new_record t data in
  (∀ p, p ∈ l → has_id (VNum t) p = false) →
  round_trips (VArr (l ++ [x])) → round_trips (VArr l) →
  ∃ w1 w2, add data w = (Ok x, w1) ∧ id_of x = VNum t ∧
    delete (VNum t) w1 = (Ok (VBool true), w2) ∧
    (get_op config ent w2).1 = Ok (VArr l).
Proof.
  intros laws configured Hadd Hdel Hseq Hrec Hnoid Hview t x Hfresh
    (c1 & Henc1 & Hdec1) (c2 & Henc2 & Hdec2).
  destruct (add_op_shape config ent add Hadd) as (name & msg & ->).
  destruct (delete_op_shape config ent delete Hdel) as (name' & prefix & ->).
  subst t x. rewrite get_op_getFile in *.
  set (t := reading (getFile config (entity_path ent) w).2) in *.
  destruct (add_record_run config docs laws configured w name
              (entity_path ent) msg data l c1 Hview Henc1)
    as (w1 & Hrun1 & Hre1).
  assert (id_of (new_record t data) = VNum t) as Hid.
  { destruct (is_record_inv data Hrec) as (fs & -> & Hnd).
    cbn [field] in Hnoid. cbn [id_of new_record].
    by rewrite obj_get_spread, Hnoid. }
  assert (filter (λ p, has_id (VNum t) p = false) (l ++ [new_record t data])
          = l) as Hfilter.
  { rewrite filter_app, (filter_absent l (VNum t) Hfresh).
    rewrite filter_cons, decide_False, filter_nil; [apply app_nil_r|].
    unfold has_id. rewrite Hid. cbn. by rewrite Z.eqb_refl. }
  destruct (delete_record_run config docs laws configured w1 name'
              (entity_path ent) prefix (VNum t) (l ++ [new_record t data]) c2)
    as (w2 & Hrun2 & Hre2).
  - by eapply rewrote_view.
  - rewrite is_sequence_app, Hseq. unfold is_sequence. cbn [andb forallb].
    by rewrite is_record_new_record.
  - by rewrite Hfilter.
  - exists w1, w2. split_and!; [done..|]. by eapply rewrote_read.
Qed.

(** X12.  Deleting the same id twice leaves what deleting it once leaves:
    the second delete writes the sequence the first one wrote. *)
Theorem delete_twice ent delete w l id :
  StoreLaws docs → truthy (token config) = true →
  delete_op config ent = Some delete →
  is_sequence l = true →
  read_view config docs (env w) (entity_path ent) = Ok (VArr l) →
  let l' := filter (λ p, has_id id p = false) l in
  round_trips (VArr l') →
  ∃ w1 w2 wr c,
    delete id w = (Ok (VBool true), w1) ∧
    (get_op config ent w1).1 = Ok (VArr l') ∧
    delete id w1 = (Ok (VBool true), w2) ∧
    writes (log w2) = writes (log w1) ++ [wr] ∧
    req_content wr = Some c ∧ decode c = Ok (VArr l') ∧
    (get_op config ent w2).1 = Ok (VArr l').
Proof.
  intros laws configured Hdel Hseq Hview l' (c & Henc & Hdec). subst l'.
  destruct (delete_op_shape config ent delete Hdel) as (name & prefix & ->).
  set (l' := filter (λ p, has_id id p = false) l) in *.
  destruct (delete_record_run config docs laws configured w name
              (entity_path ent) prefix id l c) as (w1 & Hrun1 & Hre1);
    [done..|].
  assert (filter (λ p, has_id id p = false) l' = l') as Hidem.
  { apply filter_absent. intros p Hp. unfold l' in Hp.
    by apply list_elem_of_filter in Hp as [? _]. }
  destruct (delete_record_run config docs laws configured w1 name
              (entity_path ent) prefix id l' c) as (w2 & Hrun2 & Hre2).
  - by eapply rewrote_view.
  - by apply is_sequence_filter.
  - by rewrite Hidem.
  - destruct (rewrote_writes config docs w1 w2 _ c Hre2)
      as (wr & Hw & _ & Hc).
    exists w1, w2, wr, c. rewrite get_op_getFile.
    split_and!; [done| |done..|]; by eapply rewrote_read.
Qed.

Lemma backup_path_head t : ∃ rest, backup_path t = String "b" rest.
Proof. eexists. reflexivity. Qed.

Lemma backup_path_not_data t p : p ∈ data_paths → backup_path t ≠ p.
Proof.
  intros Hin Heq. destruct (backup_path_head t) as [rest Hb].
  rewrite Hb in Heq. unfold data_paths in Hin.
  repeat (apply elem_of_cons in Hin as [->|Hin]; [discriminate Heq|]).
  by apply elem_of_nil in Hin.
Qed.


(** X14.  A backup followed by a restore of the path it returned brings
    the five documents back: each reads as it did when the backup was
    taken, and the backup itself is still there. *)
Theorem backup_then_restore w (doc : string → value)
    (content : string → string) :
  StoreLaws docs → truthy (token config) = true →
  (∀ f p, (f, p) ∈ live_documents →
     read_view config docs (env w) p = Ok (doc p) ∧
     encode (doc p) = Ok (content p) ∧
     decode (content p) = Ok (doc p)) →
  let snap := snapshot (reading w) (doc "data/products.json")
                (doc "data/categories.json") (doc "data/orders.json")
                (doc "data/contacts.json") (doc "data/website.json") in
  round_trips snap →
  ∃ t1 w1 ts w2,
    backupData config w
    = (Ok (VObj [("success", VBool true); ("path", VStr (backup_path t1));
                 ("timestamp", VStr (toISOString (reading w)))]), w1) ∧
    restoreData config (backup_path t1) w1
    = (Ok (VObj [("success", VBool true); ("timestamp", ts)]), w2) ∧
    ts = VStr (toISOString (reading w)) ∧
    (∀ f p, (f, p) ∈ live_documents →
       (getFile config p w2).1 = Ok (doc p)) ∧
    (getFile config (backup_path t1) w2).1 = Ok snap.
Proof.
  intros laws configured Hall snap (cb & Hencb & Hdecb).
  destruct (Hall "products" "data/products.json") as (Vp & Ep & Dp);
    [unfold live_documents; repeat constructor|].
  destruct (Hall "categories" "data/categories.json") as (Vc & Ec & Dc);
    [unfold live_documents; repeat constructor|].
  destruct (Hall "orders" "data/orders.json") as (Vo & Eo & Do);
    [unfold live_documents; repeat constructor|].
  destruct (Hall "contacts" "data/contacts.json") as (Vk & Ek & Dk);
    [unfold live_documents; repeat constructor|].
  destruct (Hall "website" "data/website.json") as (Vs & Es & Ds);
    [unfold live_documents; repeat constructor|].
  destruct (backupData_run config docs laws configured w _ _ _ _ _ cb
              Vp Vc Vo Vk Vs Hencb) as (t1 & w0 & w1 & Hbackup & Q & Sb).
  assert (read_view config docs (env w1) (backup_path t1) = Ok snap) as Vb.
  { by eapply saved_here. }
  destruct (restoreData_run config docs laws configured w1 (backup_path t1)
              snap doc content Vb)
    as (ts & v0 & v1 & v2 & v3 & v4 & v5 & Gt & Hrestore & Q' & S1 & S2 & S3
        & S4 & S5).
  { intros f p Hin. destruct (Hall f p Hin) as (_ & E & _).
    split; [|done]. unfold live_documents in Hin.
    repeat (apply elem_of_cons in Hin as [[= -> ->]|Hin]; [reflexivity|]).
    by apply elem_of_nil in Hin. }
  exists t1, w1, ts, v5. split_and!; [done..| | |].
  - cbn in Gt. by injection Gt as <-.
  - intros f p Hin.
    destruct (getFile_view config docs laws configured v5 p)
      as (v6 & -> & _). cbn [fst].
    unfold live_documents in Hin.
    repeat (apply elem_of_cons in Hin as [[= -> ->]|Hin];
            [rewrite ?(saved_elsewhere config docs _ _ _ _ _ S5) by done;
             rewrite ?(saved_elsewhere config docs _ _ _ _ _ S4) by done;
             rewrite ?(saved_elsewhere config docs _ _ _ _ _ S3) by done;
             rewrite ?(saved_elsewhere config docs _ _ _ _ _ S2) by done;
             by eapply saved_here|]).
    by apply elem_of_nil in Hin.
  - destruct (getFile_view config docs laws configured v5 (backup_path t1))
      as (v6 & -> & _). cbn [fst].
    assert (∀ p, p ∈ data_paths → backup_path t1 ≠ p) as Hne.
    { intros p. apply backup_path_not_data. }
    rewrite (saved_elsewhere config docs _ _ _ _ _ S5)
      by (apply Hne; unfold data_paths; repeat constructor).
    rewrite (saved_elsewhere config docs _ _ _ _ _ S4)
      by (apply Hne; unfold data_paths; repeat constructor).
    rewrite (saved_elsewhere config docs _ _ _ _ _ S3)
      by (apply Hne; unfold data_paths; repeat constructor).
    rewrite (saved_elsewhere config docs _ _ _ _ _ S2)
      by (apply Hne; unfold data_paths; repeat constructor).
    rewrite (saved_elsewhere config docs _ _ _ _ _ S1)
      by (apply Hne; unfold data_paths; repeat constructor).
    by rewrite (read_view_quiet config docs _ _ _ Q').
Qed.

(** *** Listing the backups *)

Lemma sort_insert_perm compare x l : sort_insert compare x l ≡ₚ x :: l.
Proof.
  induction l as [|y l IH]; simpl; [done|].
  destruct (compare x y <=? 0)%Z; [done|]. rewrite IH. apply Permutation_swap.
Qed.

Lemma array_sort_perm compare l : array_sort compare l ≡ₚ l.
Proof.
  induction l as [|x l IH]; simpl; [done|].
  by rewrite sort_insert_perm, IH.
Qed.

Lemma sort_insert_sorted (compare : value → value → Z) x l :
  (∀ a b, (0 < compare a b)%Z → (compare b a ≤ 0)%Z) →
  Sorted (λ a b, (compare a b ≤ 0)%Z) l →
  Sorted (λ a b, (compare a b ≤ 0)%Z) (sort_insert compare x l).
Proof.
  intros Htotal. induction 1 as [|y l Hl IH Hhd]; simpl.
  - by repeat constructor.
  - destruct (Z.leb_spec (compare x y) 0).
    + constructor; [by constructor|]. by constructor.
    + constructor; [done|].
      destruct l as [|z l]; simpl in *.
      * constructor. apply Htotal. lia.
      * destruct (compare x z <=? 0)%Z.
        -- constructor. apply Htotal. lia.
        -- constructor. by inversion Hhd.
Qed.

Lemma array_sort_sorted (compare : value → value → Z) l :
  (∀ a b, (0 < compare a b)%Z → (compare b a ≤ 0)%Z) →
  Sorted (λ a b, (compare a b ≤ 0)%Z) (array_sort compare l).
Proof.
  intros Htotal. induction l as [|x l IH]; simpl; [constructor|].
  by apply sort_insert_sorted.
Qed.

Lemma is_named_inv file :
  is_named file = true →
  ∃ fs n, file = VObj fs ∧ obj_get fs "name" = Some (VStr n).
Proof.
  unfold is_named. destruct file as [| | | | |?|fs]; simpl; try done.
  destruct (obj_get fs "name") as [[]|] eqn:E; try done. eauto.
Qed.

Lemma filter_json_named files :
  forallb is_named files = true →
  filter_json files
  = Ok (filter (λ file, ends_with ".json" (entry_name file) = true) files).
Proof.
  induction files as [|file files IH]; [done|]. cbn [forallb].
  intros [Hn Hrest]%andb_true_iff.
  destruct (is_named_inv file Hn) as (fs & n & -> & Hname).
  cbn [filter_json get_prop]. rewrite Hname.
  change (default VUndef (Some (VStr n))) with (VStr n). cbn [rbind].
  rewrite (IH Hrest). cbn [rbind]. rewrite filter_cons.
  assert (entry_name (VObj fs) = n) as ->.
  { unfold entry_name. cbn [field]. by rewrite Hname. }
  by destruct (ends_with ".json" n).
Qed.

Lemma map_entries_named files :
  forallb is_named files = true → map_entries files = Ok (listed <$> files).
Proof.
  induction files as [|file files IH]; [done|]. cbn [forallb].
  intros [Hn Hrest]%andb_true_iff.
  destruct (is_named_inv file Hn) as (fs & n & -> & Hname).
  cbn [map_entries]. rewrite (IH Hrest). reflexivity.
Qed.

Lemma forallb_filter_named (P : value → Prop) `{∀ x, Decision (P x)} files :
  forallb is_named files = true →
  forallb is_named (filter P files) = true.
Proof.
  rewrite !forallb_forall. intros Hl p Hp.
  apply Hl. apply list_elem_of_In. apply list_elem_of_In in Hp.
  by apply list_elem_of_filter in Hp as [_ ?].
Qed.

(** X15.  When the backups path does not exist, [getBackups] returns the
    empty list instead of failing. *)
Theorem getBackups_missing_is_empty w r e' :
  truthy (token config) = true →
  fetch (get_request config "backups") (env w) = (Ok r, e') →
  ok r = false → status r = 404%Z →
  json r ≠ Ok VNull → json r ≠ Ok VUndef →
  getBackups config w
  = (Ok (VArr []), sent w (get_request config "backups") e').
Proof.
  intros configured Hf Hok Hst Hn1 Hn2.
  assert (∃ m, get_prop (error_data r) "message" = Ok m) as [m Hm].
  { unfold error_data. destruct (json r) as [[]|]; simpl; eauto; congruence. }
  unfold getBackups, try_catch, bind.
  rewrite (makeRequest_get_error config configured w "backups" r e' m
             Hf Hok Hm).
  cbn [message]. by rewrite api_error_404.
Qed.

(** X16.  From a listing whose files have names, [getBackups] returns the
    entries of exactly the files whose name ends in [.json], each with its
    name, path, size and download URL, and arranged so that no entry is
    followed by one whose name compares greater: newest first, for names
    that embed the time.  The comparison is assumed total. *)
Theorem getBackups_lists_json_descending w r e' files :
  truthy (token config) = true →
  (∀ a b, (0 < localeCompare a b)%Z → (localeCompare b a ≤ 0)%Z) →
  fetch (get_request config "backups") (env w) = (Ok r, e') →
  ok r = true → json r = Ok (VArr files) →
  forallb is_named files = true →
  ∃ entries,
    getBackups config w
    = (Ok (VArr entries), sent w (get_request config "backups") e') ∧
    entries ≡ₚ
      listed <$>
        filter (λ file, ends_with ".json" (entry_name file) = true) files ∧
    Sorted (λ a b, (localeCompare (entry_name b) (entry_name a) ≤ 0)%Z)
      entries.
Proof.
  intros configured Htotal Hf Hok Hj Hnamed.
  eexists. split_and!.
  - unfold getBackups, try_catch, bind.
    rewrite (makeRequest_get_ok config configured w "backups" r e' Hf Hok), Hj.
    unfold lift. rewrite (filter_json_named files Hnamed).
    rewrite map_entries_named by (by apply forallb_filter_named).
    reflexivity.
  - apply array_sort_perm.
  - apply (array_sort_sorted by_name_descending). intros a b.
    unfold by_name_descending. apply Htotal.
Qed.

End Extras.

(** ** Error texts and the export of an empty store *)

Section MoreExtras.

Context `{Eng : Engine} `{Rem : Remote}.
Variable config : Config.
Variable docs : Env → string → option (string * value).

(** X19.  The error of a response that is not ok names the status and
    then the message the server sent, when its body is JSON with a
    non-empty [message] string; when the body is not JSON, or has no
    [message], the status text of the response stands in. *)
Theorem makeRequest_error_text path w :
  truthy (token config) = true →
  (∀ r e' j text,
     fetch (get_request config path) (env w) = (Ok r, e') → ok r = false →
     json r = Ok j → get_prop j "message" = Ok (VStr text) →
     text ≠ EmptyString →
     (makeRequest config path "GET" VNull w).1
     = Throw (JsError ("GitHub API Error: " +:+ to_string (VNum (status r))
                       +:+ " - " +:+ text))) ∧
  (∀ r e',
     fetch (get_request config path) (env w) = (Ok r, e') → ok r = false →
     (∃ e, json r = Throw e) ∨
     (∃ j, json r = Ok j ∧ get_prop j "message" = Ok VUndef) →
     (makeRequest config path "GET" VNull w).1
     = Throw (JsError ("GitHub API Error: " +:+ to_string (VNum (status r))
                       +:+ " - " +:+ statusText r))).
Proof.
  intros configured. split.
  - intros r e' j text Hf Hok Hj Hm Hne.
    rewrite (makeRequest_get_error config configured w path r e' (VStr text)
               Hf Hok); [|unfold error_data; by rewrite Hj].
    cbn [fst]. unfold api_error, js_or. cbn [truthy].
    by rewrite (proj2 (String.eqb_neq _ _) Hne).
  - intros r e' Hf Hok Hcase.
    rewrite (makeRequest_get_error config configured w path r e' VUndef
               Hf Hok); [done|].
    unfold error_data. destruct Hcase as [[e ->]|(j & -> & Hm)]; done.
Qed.

(** X20.  Exporting from a store in which no document exists does not
    fail and does not come back empty: the snapshot holds the built-in
    defaults, five products and three categories among them, and nothing
    is written. *)
Theorem exportData_of_empty_store w :
  StoreLaws docs → truthy (token config) = true →
  (∀ path, docs (env w) (contents_url config path) = None) →
  ∃ w', exportData config w
        = (Ok (snapshot (reading w) (VArr default_products)
                 (VArr default_categories) (VArr []) (VArr [])
                 default_website), w') ∧
    writes (log w') = writes (log w) ∧
    ∀ u, docs (env w') u = docs (env w) u.
Proof.
  intros laws configured Hempty.
  assert (∀ path, read_view config docs (env w) path
                  = Ok (getDefaultData path)) as Hview.
  { intros path. unfold read_view. by rewrite Hempty. }
  destruct (exportData_run config docs laws configured w _ _ _ _ _
              (Hview _) (Hview _) (Hview _) (Hview _) (Hview _))
    as (w' & Hrun & Hsame & Hw).
  by exists w'.
Qed.

End MoreExtras.

(** ** The configuration in local storage *)

Section ConfigurationFacts.

Context `{Eng : Engine} `{Rem : Remote} `{Lib : Library}.

(** X17.  With nothing saved, or an empty item, [loadConfig] returns the
    built-in configuration, whose token is null: a class constructed from
    it refuses every read and every save before anything is sent. *)
Theorem fresh_install_cannot_request (storage : gmap string string) :
  storage !! "githubConfig" = None ∨
  storage !! "githubConfig" = Some EmptyString →
  loadConfig storage = Ok default_config ∧
  config_of default_config = Some defaultConfig ∧
  ∀ path data msg c w,
    encode data = Ok c →
    getFile defaultConfig path w
    = (Throw (JsError "GitHub token not configured"), w) ∧
    saveFile defaultConfig path data msg w
    = (Throw (JsError "GitHub token not configured"), w).
Proof.
  intros Hcase. split_and!.
  - unfold loadConfig. by destruct Hcase as [-> | ->].
  - reflexivity.
  - intros path data msg c w Henc.
    split.
    + unfold getFile, try_catch, bind.
      by rewrite (no_token_makeRequest defaultConfig).
    + unfold saveFile, bind at 1. unfold encode in Henc. unfold lift at 1.
      rewrite Henc. unfold try_catch, bind.
      by rewrite (no_token_makeRequest defaultConfig).
Qed.

(** X18.  A configuration saved with [saveConfig] is the one [loadConfig]
    returns afterwards, provided its JSON text parses back to it; the
    other items of the storage are untouched. *)
Theorem saveConfig_then_loadConfig c s (storage : gmap string string) :
  JSON_stringify_compact c = Some s → s ≠ EmptyString →
  JSON_parse s = Ok c →
  (saveConfig c storage).1 = c ∧
  loadConfig (saveConfig c storage).2 = Ok c ∧
  ∀ k, k ≠ "githubConfig" → (saveConfig c storage).2 !! k = storage !! k.
Proof.
  intros Hs Hne Hparse. unfold saveConfig, loadConfig. cbn [fst snd].
  rewrite Hs. split_and!; [done| |].
  - rewrite lookup_insert_eq. cbn [truthy].
    by rewrite (proj2 (String.eqb_neq _ _) Hne).
  - intros k Hk. by rewrite lookup_insert_ne.
Qed.

End ConfigurationFacts.

(** ** These properties on the sample inputs *)

Section ExtraWitnesses.

#[local] Existing Instance RefEngine.engine.
#[local] Existing Instance MemStore.remote.
#[local] Existing Instance RefLibrary.library.

Import Sample MoreSamples.

Lemma ref_localeCompare_total a b :
  (0 < RefLibrary.localeCompare a b)%Z → (RefLibrary.localeCompare b a ≤ 0)%Z.
Proof.
  unfold RefLibrary.localeCompare. rewrite (String.compare_antisym a b).
  destruct (String.compare b a); simpl; lia.
Qed.


Lemma without_token_nothing_is_sent_witness :
  makeRequest defaultConfig "data/products.json" "PUT" (VArr []) fresh
  = (Throw (JsError "GitHub token not configured"), fresh) ∧
  getFile defaultConfig "data/products.json" fresh
  = (Throw (JsError "GitHub token not configured"), fresh) ∧
  saveFile defaultConfig "data/products.json" (VArr []) "Import products"
    fresh
  = (Throw (JsError "GitHub token not configured"), fresh) ∧
  testConnection defaultConfig fresh
  = (Ok (VObj [("success", VBool false);
               ("message", VStr "GitHub token not configured")]), fresh).
Proof.
  apply (without_token_nothing_is_sent (Rem := MemStore.remote) defaultConfig
           "data/products.json" "PUT" (VArr []) "Import products"
           (content_of (VArr [])) fresh).
  - reflexivity.
  - vm_compute. reflexivity.
Defined.



Lemma initializeData_writes_nothing_witness :
  ∃ w', initializeData config fresh
        = ((Ok VUndef, w'), ["Data already initialized"]) ∧
    writes (log w') = writes (log fresh) ∧
    ∀ u, MemStore.docs (env w') u = MemStore.docs (env fresh) u.
Proof.
  apply (initializeData_writes_nothing (Rem := MemStore.remote) config
           MemStore.docs fresh (VArr default_products)).
  - apply MemStore_laws.
  - reflexivity.
  - vm_compute. reflexivity.
Defined.


Lemma add_then_delete_witness :
  let t := reading (get_op config Categories fresh).2 in
  let x := new_record t donat in
  ∃ w1 w2, addCategory config donat fresh = (Ok x, w1) ∧ id_of x = VNum t ∧
    deleteCategory config (VNum t) w1 = (Ok (VBool true), w2) ∧
    (get_op config Categories w2).1 = Ok (VArr default_categories).
Proof.
  apply (add_then_delete (Rem := MemStore.remote) config MemStore.docs
           Categories (addCategory config) (deleteCategory config) fresh
           default_categories donat).
  - apply MemStore_laws.
  - reflexivity.
  - reflexivity.
  - reflexivity.
  - reflexivity.
  - reflexivity.
  - reflexivity.
  - vm_compute. reflexivity.
  - intros p Hp.
    repeat (apply elem_of_cons in Hp as [->|Hp]; [by vm_compute|]).
    by apply elem_of_nil in Hp.
  - apply round_trips_sample; vm_compute; reflexivity.
  - apply round_trips_sample; vm_compute; reflexivity.
Defined.

Lemma delete_twice_witness :
  let l' := filter (λ p, has_id (VNum 2) p = false) default_categories in
  ∃ w1 w2 wr c,
    deleteCategory config (VNum 2) fresh = (Ok (VBool true), w1) ∧
    (get_op config Categories w1).1 = Ok (VArr l') ∧
    deleteCategory config (VNum 2) w1 = (Ok (VBool true), w2) ∧
    writes (log w2) = writes (log w1) ++ [wr] ∧
    req_content wr = Some c ∧ decode c = Ok (VArr l') ∧
    (get_op config Categories w2).1 = Ok (VArr l').
Proof.
  apply (delete_twice (Rem := MemStore.remote) config MemStore.docs
           Categories (deleteCategory config) fresh default_categories
           (VNum 2)).
  - apply MemStore_laws.
  - reflexivity.
  - reflexivity.
  - reflexivity.
  - vm_compute. reflexivity.
  - apply round_trips_sample; vm_compute; reflexivity.
Defined.


Lemma backup_then_restore_witness :
  let snap := snapshot (reading fresh) (getDefaultData "data/products.json")
                (getDefaultData "data/categories.json")
                (getDefaultData "data/orders.json")
                (getDefaultData "data/contacts.json")
                (getDefaultData "data/website.json") in
  ∃ t1 w1 ts w2,
    backupData config fresh
    = (Ok (VObj [("success", VBool true); ("path", VStr (backup_path t1));
                 ("timestamp", VStr (toISOString (reading fresh)))]), w1) ∧
    restoreData config (backup_path t1) w1
    = (Ok (VObj [("success", VBool true); ("timestamp", ts)]), w2) ∧
    ts = VStr (toISOString (reading fresh)) ∧
    (∀ f p, (f, p) ∈ live_documents →
       (getFile config p w2).1 = Ok (getDefaultData p)) ∧
    (getFile config (backup_path t1) w2).1 = Ok snap.
Proof.
  apply (backup_then_restore (Rem := MemStore.remote) config MemStore.docs
           fresh getDefaultData (λ p, content_of (getDefaultData p))).
  - apply MemStore_laws.
  - reflexivity.
  - intros f p Hin. unfold live_documents in Hin.
    repeat (apply elem_of_cons in Hin as [Hin|Hin];
            [injection Hin as -> ->; by vm_compute|]).
    by apply elem_of_nil in Hin.
  - apply round_trips_sample; vm_compute; reflexivity.
Defined.

Lemma getBackups_missing_is_empty_witness :
  getBackups config fresh
  = (Ok (VArr []),
     sent fresh (get_request config "backups") (MemStore.elapse (env fresh))).
Proof.
  apply (getBackups_missing_is_empty (Rem := MemStore.remote) config fresh
           (respond 404 "Not Found" (MemStore.failure "Not Found"))
           (MemStore.elapse (env fresh))).
  - reflexivity.
  - reflexivity.
  - reflexivity.
  - reflexivity.
  - discriminate.
  - discriminate.
Defined.

Lemma getBackups_lists_json_descending_witness :
  let w := scripted [Ok (respond 200 "OK" (VArr listing))] in
  ∃ entries,
    getBackups (Rem := Scripted.remote) config w
    = (Ok (VArr entries),
       sent (Rem := Scripted.remote) w (get_request config "backups")
         (Scripted.mkScript [] 0)) ∧
    entries ≡ₚ
      listed <$>
        filter (λ file, ends_with ".json" (entry_name file) = true) listing ∧
    Sorted (λ a b, (localeCompare (entry_name b) (entry_name a) ≤ 0)%Z)
      entries.
Proof.
  intros w.
  apply (getBackups_lists_json_descending (Rem := Scripted.remote) config w
           (respond 200 "OK" (VArr listing)) (Scripted.mkScript [] 0)
           listing).
  - reflexivity.
  - apply ref_localeCompare_total.
  - reflexivity.
  - reflexivity.
  - reflexivity.
  - reflexivity.
Defined.

Lemma fresh_install_cannot_request_witness :
  loadConfig ∅ = Ok default_config ∧
  config_of default_config = Some defaultConfig ∧
  ∀ path data msg c (w : World (Rem := MemStore.remote)),
    encode data = Ok c →
    getFile defaultConfig path w
    = (Throw (JsError "GitHub token not configured"), w) ∧
    saveFile defaultConfig path data msg w
    = (Throw (JsError "GitHub token not configured"), w).
Proof.
  apply (fresh_install_cannot_request (Rem := MemStore.remote) ∅).
  left. reflexivity.
Defined.

Lemma saveConfig_then_loadConfig_witness :
  (saveConfig saved_config ∅).1 = saved_config ∧
  loadConfig (saveConfig saved_config ∅).2 = Ok saved_config ∧
  ∀ k, k ≠ "githubConfig" →
    (saveConfig saved_config ∅).2 !! k = (∅ : gmap string string) !! k.
Proof.
  apply (saveConfig_then_loadConfig saved_config saved_config_text ∅).
  - vm_compute. reflexivity.
  - intros H. vm_compute in H. discriminate H.
  - vm_compute. reflexivity.
Defined.

Lemma makeRequest_error_text_witness :
  (makeRequest (Rem := Scripted.remote) config "data/products.json" "GET"
     VNull (scripted [Ok backend_error])).1
  = Throw (JsError ("GitHub API Error: " +:+ to_string (VNum 500) +:+ " - "
                    +:+ "upstream returned 404")) ∧
  (makeRequest (Rem := Scripted.remote) config "data/products.json" "GET"
     VNull (scripted [Ok bad_gateway])).1
  = Throw (JsError ("GitHub API Error: " +:+ to_string (VNum 502) +:+ " - "
                    +:+ "Bad Gateway")).
Proof.
  split.
  - destruct (makeRequest_error_text (Rem := Scripted.remote) config
                "data/products.json" (scripted [Ok backend_error]))
      as [Hmessage _]; [reflexivity|].
    apply (Hmessage backend_error (Scripted.mkScript [] 0)
             (VObj [("message", VStr "upstream returned 404")])
             "upstream returned 404"); [reflexivity..|discriminate].
  - destruct (makeRequest_error_text (Rem := Scripted.remote) config
                "data/products.json" (scripted [Ok bad_gateway]))
      as [_ Hstatus]; [reflexivity|].
    apply (Hstatus bad_gateway (Scripted.mkScript [] 0));
      [reflexivity..|]. left. by eexists.
Defined.

Lemma exportData_of_empty_store_witness :
  ∃ w', exportData config fresh
        = (Ok (snapshot (reading fresh) (VArr default_products)
                 (VArr default_categories) (VArr []) (VArr [])
                 default_website), w') ∧
    writes (log w') = writes (log fresh) ∧
    ∀ u, MemStore.docs (env w') u = MemStore.docs (env fresh) u.
Proof.
  apply (exportData_of_empty_store (Rem := MemStore.remote) config
           MemStore.docs fresh).
  - apply MemStore_laws.
  - reflexivity.
  - intros path. reflexivity.
Defined.

End ExtraWitnesses.
